(** * plot_loss.py: collation of per-run loss logs and faceted plotting

    A shallow embedding of [src/plot_loss.py].  The script reads one
    [loss.csv] and one [params.json] per run directory, averages the log in
    fixed-size bins, attaches the metadata as constant columns, concatenates
    the runs into [combined.csv] and hands the table to seaborn.

    The repository code ([parse_filepath], [collate_results], [plot] and the
    [__main__] block) is translated statement by statement into a state and
    exception monad over a [world] (file system, standard output, displayed
    figures).  The library calls it makes (pandas, numpy, seaborn,
    matplotlib, json, os, glob) are modelled by their documented behaviour,
    each in a definition of its own named after the call; what differs
    between the versions of a library is a parameter ([Libraries]). *)

From Stdlib Require Import ZArith QArith Ascii DecimalString.
From stdpp Require Import gmap strings list fin_maps.

Close Scope Q_scope.

(** ** Floating-point numbers

    The log holds [int64] and [float64] numbers.  The integers are those
    of Rocq, with the wrap-around of [int64] written out where numpy adds
    them.  The embedding is parametric in the type of the floats: any
    carrier with a NaN, an addition and a division, so that every statement
    holds for IEEE doubles as well as for exact rationals. *)

Class Numeric (F : Type) := {
  Fzero : F;
  Fnan : F;
  Fadd : F → F → F;
  Fdiv : F → F → F;
  Fof_Z : Z → F;
  Feq_dec :: EqDecision F
}.

(** Exact rationals extended with NaN, used to run the model on examples. *)
Definition Qnan_add (x y : option Q) : option Q :=
  match x, y with
  | Some a, Some b => Some (Qred (a + b)%Q)
  | _, _ => None
  end.

Definition Qnan_div (x y : option Q) : option Q :=
  match x, y with
  | Some a, Some b => if Qeq_bool b 0%Q then None else Some (Qred (a / b)%Q)
  | _, _ => None
  end.

Definition Q_eq_dec : EqDecision Q.
Proof. intros [a b] [c d]. unfold Decision. decide equality; apply decide; apply _. Defined.

#[export] Instance Numeric_Q : Numeric (option Q) := {
  Fzero := Some 0%Q;
  Fnan := None;
  Fadd := Qnan_add;
  Fdiv := Qnan_div;
  Fof_Z := λ z, Some (inject_Z z);
  Feq_dec := @option_eq_dec Q Q_eq_dec
}.

(** ** Python strings *)

(** [str(z)] for an [int]. *)
Definition str_Z (z : Z) : string := NilZero.string_of_int (Z.to_int z).

Definition str_nat (n : nat) : string := str_Z (Z.of_nat n).

(** [str(x)] for an optional string ([None] or a [str]). *)
Definition str_opt (o : option string) : string :=
  match o with
  | None => "None"
  | Some s => s
  end.

(** [sep.join(l)]. *)
Fixpoint str_join (sep : string) (l : list string) : string :=
  match l with
  | [] => ""
  | [s] => s
  | s :: rest => s +:+ sep +:+ str_join sep rest
  end.

(** [s.startswith(p)], returning the remainder of [s] when it does. *)
Fixpoint str_strip_prefix (p s : string) : option string :=
  match p, s with
  | EmptyString, _ => Some s
  | String a p', String b s' => if Ascii.eqb a b then str_strip_prefix p' s' else None
  | String _ _, EmptyString => None
  end.

Definition slash : ascii := "/"%char.

Fixpoint has_slash (s : string) : bool :=
  match s with
  | EmptyString => false
  | String c s' => Ascii.eqb c slash || has_slash s'
  end.

Fixpoint all_slashes (s : string) : bool :=
  match s with
  | EmptyString => true
  | String c s' => Ascii.eqb c slash && all_slashes s'
  end.

(** [s.rstrip('/')]. *)
Fixpoint rstrip_slash (s : string) : string :=
  match s with
  | EmptyString => EmptyString
  | String c s' =>
      let r := rstrip_slash s' in
      match r with
      | EmptyString => if Ascii.eqb c slash then EmptyString else String c EmptyString
      | _ => String c r
      end
  end.

(** [(p[:i], p[i:])] for [i = p.rfind('/') + 1]. *)
Fixpoint rsplit_slash (p : string) : string * string :=
  match p with
  | EmptyString => (EmptyString, EmptyString)
  | String c p' =>
      let '(h, t) := rsplit_slash p' in
      if has_slash p' then (String c h, t)
      else if Ascii.eqb c slash then (String c EmptyString, p')
      else (EmptyString, String c p')
  end.

(** [os.path.split(p)] (posixpath): the head loses its trailing slashes
    unless it consists of slashes only. *)
Definition os_path_split (p : string) : string * string :=
  let '(head, tail) := rsplit_slash p in
  if bool_decide (head ≠ "") && negb (all_slashes head)
  then (rstrip_slash head, tail)
  else (head, tail).

(** [glob.has_magic(s)]: whether [s] has one of the wildcard characters
    [*], [?] and [[]. *)
Fixpoint has_magic (s : string) : bool :=
  match s with
  | EmptyString => false
  | String c s' =>
      Ascii.eqb c "*"%char || Ascii.eqb c "?"%char || Ascii.eqb c "["%char || has_magic s'
  end.

Definition dot : ascii := "."%char.

Fixpoint has_dot (s : string) : bool :=
  match s with
  | EmptyString => false
  | String c s' => Ascii.eqb c dot || has_dot s'
  end.

(** [(s[:i], s[i:])] for [i = s.rfind('.')]; [(s, '')] when [s] has no
    dot. *)
Fixpoint rsplit_dot (s : string) : string * string :=
  match s with
  | EmptyString => (EmptyString, EmptyString)
  | String c s' =>
      let '(root, ext) := rsplit_dot s' in
      if has_dot s' || negb (Ascii.eqb c dot) then (String c root, ext)
      else (EmptyString, String c s')
  end.

(** The extension of a file name: what starts at its last dot, the dots
    the name begins with left aside. *)
Fixpoint splitext_name (name : string) : string * string :=
  match name with
  | EmptyString => (EmptyString, EmptyString)
  | String c name' =>
      if Ascii.eqb c dot
      then let '(root, ext) := splitext_name name' in (String c root, ext)
      else rsplit_dot name
  end.

(** [os.path.splitext(p)] (posixpath). *)
Definition os_path_splitext (p : string) : string * string :=
  let '(head, name) := rsplit_slash p in
  let '(root, ext) := splitext_name name in
  (head +:+ root, ext).

(** [s.rstrip('.')]. *)
Fixpoint rstrip_dot (s : string) : string :=
  match s with
  | EmptyString => EmptyString
  | String c s' =>
      let r := rstrip_dot s' in
      match r with
      | EmptyString => if Ascii.eqb c dot then EmptyString else String c EmptyString
      | _ => String c r
      end
  end.

(** [s[1:]]. *)
Definition str_tail (s : string) : string :=
  match s with
  | EmptyString => EmptyString
  | String _ s' => s'
  end.

(** [s.lower()] on ASCII letters. *)
Definition ascii_lower (c : ascii) : ascii :=
  let n := nat_of_ascii c in
  if (65 <=? n) && (n <=? 90) then ascii_of_nat (n + 32) else c.

Fixpoint str_lower (s : string) : string :=
  match s with
  | EmptyString => EmptyString
  | String c s' => String (ascii_lower c) (str_lower s')
  end.

(** What [os.path.join(a, b)] puts in front of a relative [b]: [a], with
    a slash added unless [a] is empty or ends with one. *)
Definition dir_prefix (a : string) : string :=
  if bool_decide (a = "") then ""
  else if bool_decide (snd (rsplit_slash a) = "") then a
  else a +:+ "/".

(** [os.path.join(a, b)] (posixpath). *)
Definition os_path_join (a b : string) : string :=
  match str_strip_prefix "/" b with
  | Some _ => b
  | None => dir_prefix a +:+ b
  end.

(** The proper ancestors of a path: every non-empty prefix that ends right
    before a slash. *)
Fixpoint ancestors_from (pre rest : string) : list string :=
  match rest with
  | EmptyString => []
  | String c rest' =>
      let tail := ancestors_from (pre +:+ String c EmptyString) rest' in
      if Ascii.eqb c slash && bool_decide (pre ≠ "") && negb (all_slashes pre)
      then rstrip_slash pre :: tail
      else tail
  end.

Definition ancestors (p : string) : list string := ancestors_from "" p.

(** ** Exceptions and results *)

Inductive exn : Type :=
  | FileNotFoundError (path : string)
  | NotADirectoryError (path : string)
  | IsADirectoryError (path : string)
  | FileExistsError (path : string)
  | EmptyDataError
  | ParserError
  | JSONDecodeError
  | ZeroDivisionError
  | ValueError (msg : string)
  | TypeError (msg : string)
  | AttributeError (msg : string)
  | KeyError (key : string)
  | IndexError (msg : string)
  | InvalidIndexError.

#[export] Instance exn_eq_dec : EqDecision exn.
Proof. solve_decision. Defined.

(** The outcome of a Python expression: a value or a raised exception. *)
Inductive result (A : Type) : Type :=
  | Ok (a : A)
  | Raise (e : exn).

Arguments Ok {A} a.
Arguments Raise {A} e.

#[export] Instance result_ret : MRet result := λ A a, Ok a.

#[export] Instance result_bind : MBind result := λ A B f m,
  match m with
  | Ok a => f a
  | Raise e => Raise e
  end.

(** [str(e)] for the exceptions the script prints. *)
Definition str_exn (e : exn) : string :=
  match e with
  | FileNotFoundError p => "[Errno 2] No such file or directory: '" +:+ p +:+ "'"
  | NotADirectoryError p => "[Errno 20] Not a directory: '" +:+ p +:+ "'"
  | IsADirectoryError p => "[Errno 21] Is a directory: '" +:+ p +:+ "'"
  | FileExistsError p => "[Errno 17] File exists: '" +:+ p +:+ "'"
  | EmptyDataError => "No columns to parse from file"
  | ParserError => "Error tokenizing data"
  | JSONDecodeError => "Expecting value"
  | ZeroDivisionError => "division by zero"
  | ValueError m | TypeError m | AttributeError m | IndexError m => m
  | KeyError k => "'" +:+ k +:+ "'"
  | InvalidIndexError => "Reindexing only valid with uniquely valued Index objects"
  end.

(** ** numpy arrays

    An array is a dtype, a shape and a flat row-major buffer, as numpy
    stores a C-contiguous array.  Of the dtype the embedding keeps what
    the script depends on: [int64], [float64], or another one ([object],
    [bool]). *)

Inductive dtype : Type :=
  | Int64
  | Float64
  | Other.

(** The arithmetic of [int64]: a result that leaves the range
    [-2^63 .. 2^63 - 1] wraps around. *)
Definition wrap64 (z : Z) : Z := ((z + 2 ^ 63) mod 2 ^ 64 - 2 ^ 63)%Z.

Definition in_int64 (z : Z) : bool := ((- 2 ^ 63 <=? z) && (z <? 2 ^ 63))%Z.

Record ndarray (A : Type) : Type := NdArray {
  dtype_of : dtype;
  shape : list nat;
  data : list A
}.

Arguments NdArray {A} dtype_of shape data.
Arguments dtype_of {A} n.
Arguments shape {A} n.
Arguments data {A} n.

(** The stop index of the Python slice [[:m]] on a sequence of length [n]. *)
Definition py_stop (m : Z) (n : nat) : nat :=
  if (m <? 0)%Z then Z.to_nat (Z.of_nat n + m) else Nat.min (Z.to_nat m) n.

(** [a[:m]]: the first rows of an array along its first axis. *)
Definition slice_rows {A} (m : Z) (a : ndarray A) : ndarray A :=
  match shape a with
  | n :: inner =>
      let k := py_stop m n in
      NdArray (dtype_of a) (k :: inner) (take (k * foldr Nat.mul 1 inner) (data a))
  | [] => a
  end.

(** [a.reshape(-1, b, c)]: numpy infers the first dimension; it refuses a
    second negative dimension, a zero product of the known dimensions, and
    a size that the known dimensions do not divide.  The buffer is kept. *)
Definition reshape_3d {A} (a : ndarray A) (b : Z) (c : nat) : result (ndarray A) :=
  let size := length (data a) in
  if (b <? 0)%Z then Raise (ValueError "can only specify one unknown dimension")
  else
    let known := Z.to_nat b * c in
    if (known =? 0) || negb (size mod known =? 0)
    then Raise (ValueError "cannot reshape array")
    else Ok (NdArray (dtype_of a) [size / known; Z.to_nat b; c] (data a)).

Section Model.

Context {F : Type} `{!Numeric F}.

(** ** Table cells and JSON scalars

    A cell of a table and a value of the metadata file: [None], a
    boolean, an integer, a float or a string.  Every cell carries its own
    type; of the dtype pandas infers for a whole column the embedding
    keeps what [df.values] shows of it. *)

Inductive scalar : Type :=
  | SNone
  | SBool (b : bool)
  | SInt (z : Z)
  | SFloat (x : F)
  | SStr (s : string).

#[global] Instance scalar_eq_dec : EqDecision scalar.
Proof. solve_decision. Defined.

(** The float64 view of a cell; [None] for a cell that is not a number. *)
Definition as_float (v : scalar) : option F :=
  match v with
  | SFloat x => Some x
  | SInt z => Some (Fof_Z z)
  | _ => None
  end.

(** The integer of a cell; [None] for a cell that is not an integer. *)
Definition as_int (v : scalar) : option Z :=
  match v with
  | SInt z => Some z
  | _ => None
  end.

(** An array of numbers: of [int64] or of [float64]. *)
Inductive numbers : Type :=
  | Ints (a : ndarray Z)
  | Floats (a : ndarray F).

(** [np.einsum('ijk->ik', a)] on an array that is not of a number type.
    numpy before 1.25 refuses the dtype [object] with a [TypeError], later
    versions go through such an array with the operators of Python; an
    array of booleans is summed as booleans.  The embedding leaves the
    call open: it gives the entry of the result at each index, or
    raises. *)
Variable einsum_other : ndarray scalar → result (nat → nat → F).

(** [np.einsum('ijk->ik', a)]: sum over the middle axis of a 3-d array.
    The result has the dtype of [a]: an array of [int64] is summed in
    [int64], with wrap-around; an array of [float64] is summed in
    [float64], here in the order of the middle axis. *)
Definition einsum_ijk_ik (a : ndarray scalar) : result numbers :=
  match shape a with
  | [d0; d1; d2] =>
      match dtype_of a with
      | Int64 =>
          match mapM as_int (data a) with
          | None => Raise (TypeError "invalid data type for einsum")
          | Some zs =>
              Ok (Ints (NdArray Int64 [d0; d2]
                    (flat_map (λ i,
                       map (λ k,
                         fold_left (λ s z, wrap64 (s + z))
                           (map (λ j, nth ((i * d1 + j) * d2 + k) zs 0%Z) (seq 0 d1))
                           0%Z)
                         (seq 0 d2))
                       (seq 0 d0))))
          end
      | Float64 =>
          match mapM as_float (data a) with
          | None => Raise (TypeError "invalid data type for einsum")
          | Some xs =>
              Ok (Floats (NdArray Float64 [d0; d2]
                    (flat_map (λ i,
                       map (λ k,
                         fold_left Fadd
                           (map (λ j, nth ((i * d1 + j) * d2 + k) xs Fzero) (seq 0 d1))
                           Fzero)
                         (seq 0 d2))
                       (seq 0 d0))))
          end
      | Other =>
          entry ← einsum_other a;
          Ok (Floats (NdArray Float64 [d0; d2]
                (flat_map (λ i, map (entry i) (seq 0 d2)) (seq 0 d0))))
      end
  | _ => Raise (ValueError "einstein sum subscripts string contains too many subscripts")
  end.

(** [a / x] for a Python [int] [x]: element-wise true division.  The
    result is of [float64]: the integers of an [int64] array, and [x],
    become [float64] numbers first. *)
Definition array_div (a : numbers) (x : Z) : ndarray F :=
  match a with
  | Ints a => NdArray Float64 (shape a) (map (λ s, Fdiv (Fof_Z s) (Fof_Z x)) (data a))
  | Floats a => NdArray Float64 (shape a) (map (λ y, Fdiv y (Fof_Z x)) (data a))
  end.

(** ** pandas tables *)

(** The contents of a CSV file: a header row and data rows. *)
Record table : Type := Table {
  header : list string;
  body : list (list scalar)
}.

(** A DataFrame: column labels, row labels and rows of cells. *)
Record DataFrame : Type := Frame {
  columns : list string;
  index : list nat;
  rows : list (list scalar)
}.

(** A log of numbers: it has a row and all of its cells are numbers. *)
Definition numeric_frame (df : DataFrame) : bool :=
  bool_decide (rows df ≠ []) &&
  forallb (forallb (λ c, bool_decide (is_Some (as_float c)))) (rows df).

(** A log of integers: all of its cells are integers. *)
Definition int_frame (df : DataFrame) : bool :=
  forallb (forallb (λ c, bool_decide (is_Some (as_int c)))) (rows df).

(** [df.values] of a frame as [pd.read_csv] returns it.  A column of
    integers is of dtype [int64], a column of numbers with a float among
    them of dtype [float64], and the array has the common dtype of the
    columns: [int64] for a log of integers, [float64] for a log of numbers
    with a float.  The columns of a frame without rows are of dtype
    [object], and so is a column with a cell that is not a number.  (An
    integer cell stands for a field that [pd.read_csv] reads as an
    [int64]; a field with an integer beyond that range is read as [uint64]
    or as text, which the embedding does not tell apart.) *)
Definition frame_values (df : DataFrame) : ndarray scalar :=
  NdArray (if numeric_frame df then (if int_frame df then Int64 else Float64) else Other)
          [length (rows df); length (columns df)] (concat (rows df)).

(** [pd.DataFrame(a, columns=cols)] for a 2-d array. *)
Definition pd_DataFrame (a : ndarray F) (cols : list string) : result DataFrame :=
  match shape a with
  | [n; c] =>
      if c =? length cols
      then Ok (Frame cols (seq 0 n)
                 (map (λ i, SFloat <$> take c (drop (i * c) (data a))) (seq 0 n)))
      else Raise (ValueError "Shape of passed values does not match the columns")
  | _ => Raise (ValueError "Must pass 2-d input")
  end.

(** Lines 19 to 26 of [parse_filepath]: the trailing rows that do not fill
    a bin are cut off, the rest is viewed as blocks of [bin_size] rows,
    each block is summed column by column and divided by [bin_size].
    [len(loss)/bin_size] raises on a zero bin size; [Z.div] is the floor
    of the quotient, as [np.floor] of the float quotient is for every row
    count a double holds exactly. *)
Definition bin_frame (loss : DataFrame) (bin_size : Z) : result DataFrame :=
  let n := Z.of_nat (length (rows loss)) in
  if (bin_size =? 0)%Z then Raise ZeroDivisionError
  else
    let ignore_trailing_n := (n - (n / bin_size) * bin_size)%Z in
    let max_idx := (n - ignore_trailing_n)%Z in
    blocks ← reshape_3d (slice_rows max_idx (frame_values loss)) bin_size
                        (length (columns loss));
    sums ← einsum_ijk_ik blocks;
    pd_DataFrame (array_div sums bin_size) (columns loss).

End Model.

Arguments scalar F : clear implicits.
Arguments numbers F : clear implicits.
Arguments table F : clear implicits.
Arguments DataFrame F : clear implicits.

(** ** The world of the script *)

Section World.

Context {F : Type} `{!Numeric F}.

Abbreviation scalar := (scalar F).
Abbreviation table := (table F).
Abbreviation DataFrame := (DataFrame F).

(** [pd.read_csv] names a column with an empty header cell after its
    position. *)
Fixpoint name_unnamed (i : nat) (names : list string) : list string :=
  match names with
  | [] => []
  | n :: rest =>
      (if bool_decide (n = "") then "Unnamed: " +:+ str_nat i else n)
        :: name_unnamed (S i) rest
  end.

(** The length of the longest name counted. *)
Definition longest (counts : gmap string nat) : nat :=
  max_list (String.length <$> elements (dom counts)).

(** The loop by which [pd.read_csv] renames a header name it has seen:
    while the name has a count [n > 0], the count goes up by one and the
    name becomes [name.n].  Every round makes the name longer, so the loop
    is over once the name is longer than every name counted; [fuel] bounds
    the rounds. *)
Fixpoint dedup_name (fuel : nat) (counts : gmap string nat) (col : string)
    : gmap string nat * string :=
  match fuel with
  | 0 => (counts, col)
  | S fuel' =>
      match counts !! col with
      | Some (S n) =>
          dedup_name fuel' (<[col := S (S n)]> counts) (col +:+ "." +:+ str_nat (S n))
      | _ => (counts, col)
      end
  end.

(** The header names as [pd.read_csv] makes them distinct, from left to
    right, [counts] holding the names given so far. *)
Fixpoint dedup_names (counts : gmap string nat) (names : list string) : list string :=
  match names with
  | [] => []
  | name :: rest =>
      let '(counts', col) := dedup_name (S (longest counts)) counts name in
      col :: dedup_names (<[col := 1]> counts') rest
  end.

(** A name the loop has counted. *)
Definition seen (counts : gmap string nat) (k : string) : Prop :=
  ∃ n, counts !! k = Some (S n).

(** The lines of a file [pd.read_csv] reads: blank lines are skipped. *)
Definition data_lines (t : table) : list (list scalar) :=
  filter (λ r, r ≠ []) (body t).

(** The frame [pd.read_csv] builds from the contents of a file: a file
    with no header has no columns to parse, a row with more fields than the
    header is a tokenizing error, a shorter row is filled with NaN.  The
    columns are the header names, placeholders put in and repeats renamed;
    the rows are labelled [0 .. n-1].  (A file whose first row has more
    fields than the header, of which pandas makes row labels, is outside
    the embedding and counts as a tokenizing error.) *)
Definition frame_of_table (t : table) : result DataFrame :=
  if bool_decide (header t = []) then Raise EmptyDataError
  else if existsb (λ r, length (header t) <? length r) (data_lines t) then Raise ParserError
  else Ok (Frame (dedup_names ∅ (name_unnamed 0 (header t))) (seq 0 (length (data_lines t)))
             (map (λ r, r ++ replicate (length (header t) - length r) (SFloat Fnan))
                (data_lines t))).

(** A cell as it comes back from a CSV file: a missing value and an empty
    string are written as an empty field, which reads as NaN.  (A string
    that spells a number comes back as that number when its whole column
    does; this inference over a column is not modelled.) *)
Definition csv_cell (v : scalar) : scalar :=
  match v with
  | SNone => SFloat Fnan
  | SStr EmptyString => SFloat Fnan
  | _ => v
  end.

(** What [df.to_csv(path)] writes: the row labels go first, under an empty
    header cell. *)
Definition table_of_frame (df : DataFrame) : table :=
  Table ("" :: columns df)
        (zip_with (λ i r, SInt (Z.of_nat i) :: (csv_cell <$> r)) (index df) (rows df)).

(** A Python [dict]: keys are unique and keep their insertion order. *)
Definition dict : Type := list (string * scalar).

Fixpoint dict_set (k : string) (v : scalar) (d : dict) : dict :=
  match d with
  | [] => [(k, v)]
  | (k', v') :: d' =>
      if decide (k' = k) then (k', v) :: d' else (k', v') :: dict_set k v d'
  end.

(** [json.load] on an object with scalar members (the metadata file is a
    flat key-value map): a repeated key keeps its last value. *)
Definition json_load (members : list (string * scalar)) : dict :=
  foldl (λ d kv, dict_set kv.1 kv.2 d) [] members.

(** [df[k] = v] for a scalar [v]: every column labelled [k] is overwritten
    with [v]; when there is none, a column of [v] is appended. *)
Definition set_column (k : string) (v : scalar) (df : DataFrame) : DataFrame :=
  if decide (k ∈ columns df)
  then Frame (columns df) (index df)
         (map (λ r, zip_with (λ c x, if decide (c = k) then v else x) (columns df) r)
            (rows df))
  else Frame (columns df ++ [k]) (index df) (map (λ r, r ++ [v]) (rows df)).

(** The position of the first column labelled [c]. *)
Definition column_pos (c : string) (cols : list string) : option nat :=
  fst <$> list_find (λ c', c' = c) cols.

(** The cell of a row under column [c], NaN when the frame has no such
    column. *)
Definition cell_at (cols : list string) (c : string) (r : list scalar) : scalar :=
  match column_pos c cols with
  | Some j => nth j r (SFloat Fnan)
  | None => SFloat Fnan
  end.

(** Whether a frame has exactly one column labelled [c]. *)
Definition has_column (df : DataFrame) (c : string) : bool :=
  bool_decide (length (filter (λ c', c' = c) (columns df)) = 1).

(** [df[c]] as the list of its values, for the methods of a [Series]: a
    missing label is a [KeyError]; under a label that repeats [df[c]] is a
    frame, which has no such method. *)
Definition get_column (df : DataFrame) (c : string) : result (list scalar) :=
  match column_pos c (columns df) with
  | Some j =>
      if has_column df c then Ok (map (λ r, nth j r (SFloat Fnan)) (rows df))
      else Raise (AttributeError "'DataFrame' object has no attribute 'unique'")
  | None => Raise (KeyError c)
  end.

(** [series.unique()]: the distinct values in order of first appearance. *)
Definition unique (l : list scalar) : list scalar := remove_dups l.

(** The labels of several frames in order of first appearance. *)
Definition union_columns (colss : list (list string)) : list string :=
  foldl (λ acc cs, acc ++ list_difference cs acc) [] colss.

Definition has_dup (cols : list string) : bool := bool_decide (¬ NoDup cols).

(** [pd.concat(dfs, axis=0)]: the rows are stacked under the union of the
    columns, a cell of a column its frame lacks is NaN.  No frame at all
    is an error; so is realigning a frame whose labels repeat.  The union
    is in the order of first appearance, as pandas 1.0 and later have it
    (earlier versions sort it); the statements speak of the labels as a
    set. *)
Definition pd_concat (dfs : list DataFrame) : result DataFrame :=
  match dfs with
  | [] => Raise (ValueError "No objects to concatenate")
  | df0 :: _ =>
      if forallb (λ df, bool_decide (columns df = columns df0)) dfs
      then Ok (Frame (columns df0) (concat (index <$> dfs)) (concat (rows <$> dfs)))
      else if existsb (λ df, has_dup (columns df)) dfs then Raise InvalidIndexError
      else
        let cols := union_columns (columns <$> dfs) in
        Ok (Frame cols (concat (index <$> dfs))
              (concat ((λ df, (λ r, (λ c, cell_at (columns df) c r) <$> cols) <$> rows df)
                         <$> dfs)))
  end.

(** *** Figures *)

(** The arguments of a call to [sns.relplot]. *)
Record relplot_call : Type := Relplot {
  rp_x : string;
  rp_y : string;
  rp_data : DataFrame;
  rp_hue : option string;
  rp_units : option string;
  rp_style : option string;
  rp_estimator_none : bool;
  rp_kind : string;
  rp_legend : string;
  rp_height : Z;
  rp_aspect : Q;
  rp_col : string;
  rp_col_wrap : nat;
  rp_sharey : bool
}.

(** One panel of a facet grid. *)
Record axes : Type := Axes {
  ax_facet : scalar;
  ax_xlabel : string;
  ax_ylim : option (Z * Z)
}.

(** A facet grid: [fig_ncol] panels per grid row, panels of height
    [fig_height], one panel per facet. *)
Record figure : Type := Figure {
  fig_call : relplot_call;
  fig_ncol : nat;
  fig_nrow : nat;
  fig_height : Z;
  fig_axes : list axes
}.

Definition has_opt_column (df : DataFrame) (o : option string) : bool :=
  match o with
  | None => true
  | Some c => has_column df c
  end.

(** [pd.isnull(v)]: a missing value, [None] or NaN. *)
Definition is_null (v : scalar) : bool :=
  match v with
  | SNone => true
  | SFloat x => bool_decide (x = Fnan)
  | _ => false
  end.

(** The levels seaborn gives a variable: its distinct values that are not
    missing.  They are kept in the order of first appearance; seaborn
    sorts them when they are numbers, so only the collection of the levels
    is meant, not their order. *)
Definition categorical_order (values : list scalar) : list scalar :=
  filter (λ v, is_null v = false) (unique values).

(** [sns.relplot(..., col=c, col_wrap=n)]: every variable must be the
    label of one column of the data; the grid gets one panel per level of
    column [c], [n] panels per grid row, and cannot be built without a
    panel. *)
Definition sns_relplot (call : relplot_call) : result figure :=
  let df := rp_data call in
  if negb (has_column df (rp_x call) && has_column df (rp_y call) &&
           has_opt_column df (rp_hue call) && has_opt_column df (rp_style call) &&
           has_opt_column df (rp_units call))
  then Raise (ValueError "Could not interpret value for parameter")
  else
    values ← get_column df (rp_col call);
    let facets := categorical_order values in
    if bool_decide (facets = []) then Raise (IndexError "index 0 is out of bounds")
    else Ok (Figure call (rp_col_wrap call)
               ((length facets + rp_col_wrap call - 1) / rp_col_wrap call)
               (rp_height call)
               ((λ v, Axes v "" None) <$> facets)).

(** *** File system, output and screen *)

Inductive content : Type :=
  | Csv (t : table)
  | Json (members : list (string * scalar))
  | Image (fig : figure).

Inductive node : Type :=
  | Dir
  | File (c : content).

(** The state the script runs in.  Paths are the keys of the file system
    as they are spelled: two spellings of one path are two keys. *)
Record world : Type := World {
  fs : gmap string node;
  stdout : list string;
  shown : list figure
}.

Definition is_file (o : option node) : bool :=
  match o with
  | Some (File _) => true
  | _ => false
  end.

(** A directory that exists: the working directory, the root, or a
    directory node. *)
Definition is_dir (m : gmap string node) (d : string) : bool :=
  all_slashes d || match m !! d with Some Dir => true | _ => false end.

(** Whether a path leads through a regular file. *)
Definition through_file (m : gmap string node) (path : string) : bool :=
  existsb (λ a, is_file (m !! a)) (ancestors path).

(** The state and exception monad of the script. *)
Definition io (A : Type) : Type := world → world * result A.

#[global] Instance io_ret : MRet io := λ A a w, (w, Ok a).

#[global] Instance io_bind : MBind io := λ A B f m w,
  match m w with
  | (w', Ok a) => f a w'
  | (w', Raise e) => (w', Raise e)
  end.

Definition raise {A} (e : exn) : io A := λ w, (w, Raise e).

Definition lift {A} (r : result A) : io A := λ w, (w, r).

(** [try: body except ...: handler]: [handler e] is [None] for an
    exception no [except] clause matches. *)
Definition try_except {A} (body : io A) (handler : exn → option (io A)) : io A := λ w,
  match body w with
  | (w', Ok a) => (w', Ok a)
  | (w', Raise e) =>
      match handler e with
      | Some h => h w'
      | None => (w', Raise e)
      end
  end.

Definition print (line : string) : io unit := λ w,
  (World (fs w) (stdout w ++ [line]) (shown w), Ok ()).

End World.

Arguments dict F : clear implicits.
Arguments relplot_call F : clear implicits.
Arguments axes F : clear implicits.
Arguments figure F : clear implicits.
Arguments content F : clear implicits.
Arguments node F : clear implicits.
Arguments world F : clear implicits.
Arguments io F A : clear implicits.

(** ** Command line *)

(** The namespace [parse_args] returns.  [--seed] is parsed with
    [type=str], so the field is a string; options without a default are
    [None] when absent. *)
Record args : Type := Args {
  results_dir : string;
  create_csv : bool;
  bin_size : Z;
  query : option string;
  hue : option string;
  style : option string;
  seed : string;
  no_plot : bool;
  no_show : bool;
  save_path : option string
}.

(** The defaults of [parse_args]: what an invocation without options
    gets. *)
Definition default_args : args :=
  Args "results/pretraining" false 100 None None None "average" false false None.

(** The values the [seed] parameter of [plot] is called with: a string, a
    list of seeds, or something else: an integer, [None], or any other
    object that is not a list and equals no string, given by what [str]
    makes of it. *)
Inductive seed_arg : Type :=
  | SeedStr (s : string)
  | SeedList (seeds : list Z)
  | SeedInt (z : Z)
  | SeedNone
  | SeedOther (text : string).

(** [str(seed)]. *)
Definition str_seed (s : seed_arg) : string :=
  match s with
  | SeedStr s => s
  | SeedList l => "[" +:+ str_join ", " (str_Z <$> l) +:+ "]"
  | SeedInt z => str_Z z
  | SeedNone => "None"
  | SeedOther text => text
  end.

(** [isinstance(seed, list)]. *)
Definition is_list (s : seed_arg) : bool :=
  match s with
  | SeedList _ => true
  | _ => false
  end.

(** [seed == text]. *)
Definition seed_eq (s : seed_arg) (text : string) : bool :=
  match s with
  | SeedStr s => bool_decide (s = text)
  | _ => false
  end.

(** ** What the libraries leave open

    The script fixes no version of the libraries it calls and evaluates
    query expressions it is given.  What differs between versions, and
    what lies outside the script, is a parameter of the embedding. *)

Class Libraries (F : Type) := {
  (** [np.einsum('ijk->ik', a)] on an array that is not of a number type:
      a [TypeError] for the dtype [object] before numpy 1.25, the
      operators of Python on the cells since. *)
  einsum_other : ndarray (scalar F) → result (nat → nat → F);
  (** How [pd.read_csv] reports a path that leads through a regular file:
      pandas up to 1.0 tests [os.path.exists] and raises
      [FileNotFoundError], later versions pass the [NotADirectoryError] of
      the operating system on. *)
  csv_through_file : string → exn;
  (** [df.query(expr)], the expression evaluator of pandas. *)
  df_query : string → DataFrame F → result (DataFrame F);
  (** The formats the backend of matplotlib can write, as
      [get_supported_filetypes] lists them. *)
  savefig_formats : list string;
  (** [glob.glob(pattern)] for a pattern whose directory part has a
      wildcard itself. *)
  glob_wildcard : gmap string (node F) → string → list string
}.

(** ** The script *)

Section Script.

Context {F : Type} `{!Numeric F} `{!Libraries F}.

Abbreviation scalar := (scalar F).
Abbreviation table := (table F).
Abbreviation DataFrame := (DataFrame F).
Abbreviation figure := (figure F).
Abbreviation content := (content F).
Abbreviation node := (node F).
Abbreviation world := (world F).
Abbreviation io := (io F).

(** *** Library calls on the world *)

(** [pd.read_csv(path)]. *)
Definition pd_read_csv (path : string) : io DataFrame := λ w,
  match fs w !! path with
  | Some (File (Csv t)) => (w, frame_of_table t)
  | Some (File _) => (w, Raise ParserError)
  | Some Dir => (w, Raise (IsADirectoryError path))
  | None =>
      (w, Raise (if through_file (fs w) path then csv_through_file path
                 else FileNotFoundError path))
  end.

(** [open(path, "r")]. *)
Definition open_file (path : string) : io content := λ w,
  match fs w !! path with
  | Some (File c) => (w, Ok c)
  | Some Dir => (w, Raise (IsADirectoryError path))
  | None =>
      (w, Raise (if through_file (fs w) path then NotADirectoryError path
                 else FileNotFoundError path))
  end.

(** [json.load(json_file)]. *)
Definition json_load_file (c : content) : result (dict F) :=
  match c with
  | Json members => Ok (json_load members)
  | _ => Raise JSONDecodeError
  end.

(** Whether [p] is [os.path.join(d, name)] for a name [*] matches: a
    non-empty name without a slash that does not start with a dot. *)
Definition is_child (d p : string) : bool :=
  match str_strip_prefix (dir_prefix d) p with
  | Some (String c name) => negb (Ascii.eqb c "."%char) && negb (has_slash (String c name))
  | _ => false
  end.

(** The paths [glob.glob(pattern)] returns for a pattern [d/*]: when [d]
    has no wildcard, the entries of directory [d], of whatever kind, in the
    order the file system lists them. *)
Definition glob_paths (m : gmap string node) (pattern : string) : list string :=
  let '(dirname, basename) := os_path_split pattern in
  if has_magic dirname then glob_wildcard m pattern
  else if bool_decide (basename = "*") && is_dir m dirname
  then filter (λ p, is_child dirname p) (map_to_list m).*1
  else [].

(** [glob.glob(pattern)]. *)
Definition glob_glob (pattern : string) : io (list string) := λ w,
  (w, Ok (glob_paths (fs w) pattern)).

(** Opening [path] for writing and storing [c]: the path must not be a
    directory and its directory must exist. *)
Definition write_file (path : string) (c : content) : io unit := λ w,
  if bool_decide (path = "") then (w, Raise (FileNotFoundError path))
  else
    match fs w !! path with
    | Some Dir => (w, Raise (IsADirectoryError path))
    | _ =>
        if is_dir (fs w) (os_path_split path).1
        then (World (<[path := File c]> (fs w)) (stdout w) (shown w), Ok ())
        else (w, Raise (if through_file (fs w) path then NotADirectoryError path
                        else FileNotFoundError path))
    end.

(** [df.to_csv(path)]. *)
Definition to_csv (df : DataFrame) (path : string) : io unit :=
  write_file path (Csv (table_of_frame df)).

(** [os.makedirs(name, exist_ok=True)]: the directory and every missing
    ancestor are created.  The empty name is refused, and so is a name
    that is, or leads through, a regular file. *)
Definition os_makedirs (name : string) : io unit := λ w,
  if bool_decide (name = "") then (w, Raise (FileNotFoundError name))
  else if is_file (fs w !! name) then (w, Raise (FileExistsError name))
  else if through_file (fs w) name then (w, Raise (NotADirectoryError name))
  else (World (foldr (λ d m, <[d := Dir]> m) (fs w) (ancestors name ++ [name]))
              (stdout w) (shown w), Ok ()).

(** Whether a file name says its format: whether
    [os.path.splitext(path)[1][1:]] is not empty. *)
Definition names_format (path : string) : bool :=
  bool_decide (str_tail (os_path_splitext path).2 ≠ "").

(** The format [savefig] writes: the extension of the file name in lower
    case, or ['png'], the default of matplotlib, when the name has
    none. *)
Definition savefig_format (path : string) : string :=
  if names_format path then str_lower (str_tail (os_path_splitext path).2) else "png".

(** The file [savefig] writes: the name as given when it says the format,
    else [path.rstrip('.') + '.png']. *)
Definition savefig_filename (path : string) : string :=
  if names_format path then path else rstrip_dot path +:+ ".png".

(** [g.savefig(path)]: the format must be one matplotlib can write. *)
Definition savefig (g : figure) (path : string) : io unit :=
  if bool_decide (savefig_format path ∈ savefig_formats)
  then write_file (savefig_filename path) (Image g)
  else raise (ValueError ("Format '" +:+ savefig_format path
                          +:+ "' is not supported (supported formats: "
                          +:+ str_join ", " savefig_formats +:+ ")")).

(** [plt.show()] with the one open figure [g]. *)
Definition plt_show (g : figure) : io unit := λ w,
  (World (fs w) (stdout w) (shown w ++ [g]), Ok ()).

(** *** [parse_filepath] *)

(** Lines 29 and 30: [for k, v in params.items(): loss[k] = v]. *)
Definition attach_params (params : dict F) (loss : DataFrame) : DataFrame :=
  foldl (λ loss kv, set_column kv.1 kv.2 loss) loss params.

Definition parse_filepath (fp : string) (bin_size : Z) : io (option DataFrame) :=
  try_except
    (loss ← pd_read_csv (fp +:+ "/loss.csv");
     loss ← lift (bin_frame einsum_other loss bin_size);
     json_file ← open_file (fp +:+ "/params.json");
     params ← lift (json_load_file json_file);
     mret (Some (attach_params params loss)))
    (λ e,
       match e with
       | FileNotFoundError _ =>
           Some (print ("Error in parsing filepath " +:+ fp +:+ ": " +:+ str_exn e);;
                 mret None)
       | _ => None
       end).

(** *** [collate_results] *)

(** The loop of lines 39 to 44 over the paths [runs], with the list [dfs]
    it appends to. *)
Fixpoint collate_loop (runs : list string) (bin_size : Z) (dfs : list DataFrame)
    : io (list DataFrame) :=
  match runs with
  | [] => mret dfs
  | run :: rest =>
      print ("Found " +:+ run);;
      run_df ← parse_filepath run bin_size;
      match run_df with
      | None => collate_loop rest bin_size dfs
      | Some df => collate_loop rest bin_size (dfs ++ [df])
      end
  end.

Definition collate_results (results_dir : string) (bin_size : Z) : io DataFrame :=
  runs ← glob_glob (results_dir +:+ "/*");
  dfs ← collate_loop runs bin_size [];
  lift (pd_concat dfs).

(** *** [plot] *)

(** Lines 87 to 89: every panel gets its x label and its y range. *)
Definition label_axes (bin_size : Z) (g : figure) : figure :=
  Figure (fig_call g) (fig_ncol g) (fig_nrow g) (fig_height g)
    ((λ ax, Axes (ax_facet ax) ("step in " +:+ str_Z bin_size +:+ "s") (Some (0, 3)%Z))
       <$> fig_axes g).

(** Line 49: what [plot] prints first. *)
Definition plot_banner (hue style : option string) (seed : seed_arg) : string :=
  "Plotting using hue=" +:+ str_opt hue +:+ ", style=" +:+ str_opt style
  +:+ ", " +:+ str_seed seed.

(** Lines 49 to 89 of [plot]: the figure [g] with its labelled panels. *)
Definition facet_figure (data : DataFrame) (hue style : option string) (seed : seed_arg)
    (bin_size : Z) : io figure :=
  print (plot_banner hue style seed);;
  envs ← lift (get_column data "env");
  let height := if 2 <? length (unique envs) then 3%Z else 5%Z in
  envs ← lift (get_column data "env");
  let col_wrap := if 1 <? length (unique envs) then 2 else 1 in
  g ← (if is_list seed || seed_eq seed "average"
       then lift (sns_relplot
                    (Relplot "step" "loss" data hue None style false "line" "full"
                       height (3 # 2)%Q "env" col_wrap false))
       else if seed_eq seed "all"
       then lift (sns_relplot
                    (Relplot "step" "loss" data hue (Some "seed") style true "line" "full"
                       height (3 # 2)%Q "env" col_wrap false))
       else raise (ValueError (str_seed seed +:+ " not a recognized choice")));
  mret (label_axes bin_size g).

Definition plot (data : DataFrame) (hue style : option string) (seed : seed_arg)
    (bin_size : Z) (savepath : option string) (show : bool) : io unit :=
  g ← facet_figure data hue style seed bin_size;
  match savepath with
  | Some path => savefig g path
  | None => mret ()
  end;;
  if show then plt_show g else mret ().

(** *** [__main__] *)

(** Lines 127 to 130: the table is rebuilt and written. *)
Definition rebuild_csv (a : args) : io unit :=
  print "Recreating csv in results directory";;
  print ("Binning by " +:+ str_Z (bin_size a));;
  df ← collate_results (results_dir a) (bin_size a);
  to_csv df (os_path_join (results_dir a) "combined.csv").

(** Lines 133 to 139: the directory of the image is made, the table is
    read back and filtered. *)
Definition load_table (a : args) : io DataFrame :=
  match save_path a with
  | Some path =>
      if bool_decide (path ≠ "") then os_makedirs (os_path_split path).1 else mret ()
  | None => mret ()
  end;;
  df ← pd_read_csv (os_path_join (results_dir a) "combined.csv");
  match query a with
  | Some q => print ("Filtering with " +:+ q);; lift (df_query q df)
  | None => mret df
  end.

(** Line 140: the call of [plot]; the seed it passes is the string of the
    command line. *)
Definition plot_call (a : args) (df : DataFrame) : io unit :=
  plot df (hue a) (style a) (SeedStr (seed a)) (bin_size a) (save_path a)
       (negb (no_show a)).

Definition main (a : args) : io unit :=
  (if create_csv a then rebuild_csv a else mret ());;
  if negb (no_plot a)
  then df ← load_table a; plot_call a df
  else mret ().

(** *** Notions the statements use *)

(** A path that is absent and does not lead through a regular file: the
    paths [open] and [pd.read_csv] report with [FileNotFoundError]. *)
Definition file_missing (m : gmap string node) (path : string) : bool :=
  bool_decide (m !! path = None) && negb (through_file m path).

(** A computation that shows no figure. *)
Definition keeps_screen {A} (c : io A) : Prop :=
  ∀ w, shown (c w).1 = shown w.


(** A frame whose rows are as long as its header. *)
Definition rectangular (df : DataFrame) : Prop :=
  Forall (λ r, length r = length (columns df)) (rows df).


(** A run the loop skips for a missing file: [loss.csv] is missing, or it
    is a numeric log, the bin size is positive and [params.json] is
    missing. *)
Definition missing_file_run (m : gmap string node) (fp : string) (B : Z) : Prop :=
  file_missing m (fp +:+ "/loss.csv") = true ∨
  ∃ t loss,
    m !! (fp +:+ "/loss.csv") = Some (File (Csv t)) ∧
    frame_of_table t = Ok loss ∧
    numeric_frame loss = true ∧
    (0 < B)%Z ∧
    file_missing m (fp +:+ "/params.json") = true.

(** A computation that only reads the file system and writes to the
    standard output: it leaves the files and the screen alone, and its
    outcome and its output depend on the files only. *)
Definition log_only {A} (c : io A) : Prop :=
  ∀ w, c w = (World (fs w) (stdout w ++ stdout (c (World (fs w) [] [])).1) (shown w),
              (c (World (fs w) [] [])).2).

(** The number in row [r], column position [k] of a frame. *)
Definition float_at (df : DataFrame) (r k : nat) : F :=
  default Fnan (as_float (nth k (nth r (rows df) []) SNone)).

(** The integer in row [r], column position [k] of a log of integers. *)
Definition int_at (df : DataFrame) (r k : nat) : Z :=
  default 0%Z (as_int (nth k (nth r (rows df) []) SNone)).

(** The sum of column [k] of a log of integers over the rows
    [i*B .. i*B+B-1], as an integer. *)
Definition window_sum (df : DataFrame) (B : Z) (i k : nat) : Z :=
  fold_left Z.add ((λ j, int_at df (i * Z.to_nat B + j) k) <$> seq 0 (Z.to_nat B)) 0%Z.

(** The arithmetic mean of column [k] over the rows [i*B .. i*B+B-1]: the
    sum of the [B] numbers divided by [B].  The numbers of a log of
    integers add up to an integer; the numbers of a log with a float are
    floats, added in row order. *)
Definition window_mean (df : DataFrame) (B : Z) (i k : nat) : F :=
  if int_frame df
  then Fdiv (Fof_Z (window_sum df B i k)) (Fof_Z B)
  else Fdiv (fold_left Fadd ((λ j, float_at df (i * Z.to_nat B + j) k)
                               <$> seq 0 (Z.to_nat B))
               Fzero)
            (Fof_Z B).

(** The mean lines 19 to 26 compute for a log of integers: the sum is an
    [int64]. *)
Definition wrapped_mean (df : DataFrame) (B : Z) (i k : nat) : F :=
  Fdiv (Fof_Z (wrap64 (window_sum df B i k))) (Fof_Z B).

(** A log whose integers are [int64] numbers: every integer cell is in
    the range of [int64], and so is, in a log of integers, the sum of
    every column over every window of [B] rows. *)
Definition int64_cells (df : DataFrame) : bool :=
  forallb (forallb (λ c, match c with SInt z => in_int64 z | _ => true end)) (rows df).

Definition int64_log (df : DataFrame) (B : Z) : Prop :=
  int64_cells df = true ∧
  (int_frame df = true →
   ∀ i k, i < length (rows df) / Z.to_nat B → k < length (columns df) →
     in_int64 (window_sum df B i k) = true).

(** The binned table as the specification words it: [floor(N/B)] rows,
    row [i] the column-wise mean of the rows [i*B .. i*B+B-1]. *)
Definition binned_means (df : DataFrame) (B : Z) : DataFrame :=
  let n := length (rows df) / Z.to_nat B in
  Frame (columns df) (seq 0 n)
    ((λ i, (λ k, SFloat (window_mean df B i k)) <$> seq 0 (length (columns df)))
       <$> seq 0 n).

(** The figure of [plot], or the error it raises before it has one. *)
Definition facet_result (data : DataFrame) (hue style : option string) (seed : seed_arg)
    (bin_size : Z) : result figure :=
  (facet_figure data hue style seed bin_size (World ∅ [] [])).2.

(** The seed modes [plot] accepts. *)
Definition valid_seed (s : seed_arg) : bool :=
  is_list s || seed_eq s "average" || seed_eq s "all".

(** The number of distinct environments of a table. *)
Definition env_count (data : DataFrame) : nat :=
  match get_column data "env" with
  | Ok envs => length (unique envs)
  | Raise _ => 0
  end.

End Script.

(** ** Sample runs

    Concrete files to run the script on, over the exact rationals.  The
    sample libraries are those of the time of the script: [np.einsum]
    refuses an array that is not of numbers, matplotlib writes the formats
    of its Agg backend; the sample query keeps every row, and the results
    directories have no wildcard in their names. *)

Module Sample.

Abbreviation FQ := (option Q).

Definition keep_rows (q : string) (df : DataFrame FQ) : result (DataFrame FQ) := Ok df.

(** [np.einsum] as numpy before 1.25 has it. *)
Definition refuse_dtype (a : ndarray (scalar FQ)) : result (nat → nat → FQ) :=
  Raise (TypeError "invalid data type for einsum").

(** The formats of the Agg backend of matplotlib. *)
Definition formats : list string :=
  ["eps"; "jpeg"; "jpg"; "pdf"; "pgf"; "png"; "ps"; "raw"; "rgba"; "svg"; "svgz";
   "tif"; "tiff"; "webp"].

(** The libraries of the time of the script; [pd.read_csv] reports a path
    through a regular file as a missing file (pandas up to 1.0). *)
#[global] Instance libraries : Libraries FQ := {
  einsum_other := refuse_dtype;
  csv_through_file := FileNotFoundError;
  df_query := keep_rows;
  savefig_formats := formats;
  glob_wildcard := λ _ _, []
}.

(** The same with a [pd.read_csv] that passes the error of the operating
    system on (later pandas). *)
Definition later_pandas : Libraries FQ := {|
  einsum_other := refuse_dtype;
  csv_through_file := NotADirectoryError;
  df_query := keep_rows;
  savefig_formats := formats;
  glob_wildcard := λ _ _, []
|}.

(** A log of [n] rows with the columns [step] and [loss]. *)
Definition log (n : nat) : table FQ :=
  Table ["step"; "loss"]
    ((λ i, [SInt (Z.of_nat i); SFloat (Some (inject_Z (Z.of_nat (i mod 7))))]) <$> seq 0 n).

Definition params_A : list (string * scalar FQ) :=
  [("env", SStr "pong"); ("seed", SInt 1)].

Definition params_C : list (string * scalar FQ) :=
  [("env", SStr "breakout"); ("seed", SInt 2); ("lr", SFloat (Some (1 # 10000)%Q))].

(** The frame [pd.read_csv] makes of the log of run A. *)
Definition loss_A : DataFrame FQ :=
  Frame ["step"; "loss"] (seq 0 250) (body (log 250)).

(** A log of integers only, of five rows, and the frame [pd.read_csv]
    makes of it. *)
Definition counts : table FQ :=
  Table ["step"; "count"]
    [[SInt 0; SInt 3]; [SInt 1; SInt 5]; [SInt 2; SInt 7]; [SInt 3; SInt 9];
     [SInt 4; SInt 1]].

Definition loss_counts : DataFrame FQ :=
  Frame ["step"; "count"] (seq 0 5) (body counts).

(** A run with the log of integers. *)
Definition w_counts : world FQ :=
  World (list_to_map
           [("res", Dir);
            ("res/runI", Dir);
            ("res/runI/loss.csv", File (Csv counts));
            ("res/runI/params.json", File (Json params_A))])
        [] [].

(** A log of integers whose sum leaves the range of [int64]. *)
Definition loss_huge : DataFrame FQ :=
  Frame ["step"] [0; 1] [[SInt (2 ^ 62)]; [SInt (2 ^ 62)]].

(** A results directory: run A with 250 rows, run B without its metadata
    file, run C with 300 rows, and the table of an earlier invocation. *)
Definition fs_runs : gmap string (node FQ) :=
  list_to_map
    [("res", Dir);
     ("res/runA", Dir);
     ("res/runA/loss.csv", File (Csv (log 250)));
     ("res/runA/params.json", File (Json params_A));
     ("res/runB", Dir);
     ("res/runB/loss.csv", File (Csv (log 120)));
     ("res/runC", Dir);
     ("res/runC/loss.csv", File (Csv (log 300)));
     ("res/runC/params.json", File (Json params_C));
     ("res/combined.csv", File (Csv (log 3)))].

Definition w_runs : world FQ := World fs_runs [] [].

(** A results directory without any entry. *)
Definition w_empty : world FQ := World {["res" := Dir]} [] [].

(** A results directory whose runs all miss a file: run B has no
    metadata, run D has nothing. *)
Definition fs_skipped : gmap string (node FQ) :=
  list_to_map
    [("res", Dir);
     ("res/runB", Dir);
     ("res/runB/loss.csv", File (Csv (log 120)));
     ("res/runD", Dir)].

Definition w_skipped : world FQ := World fs_skipped [] [].

(** The frame [pd.read_csv] makes of the log of run B. *)
Definition loss_B : DataFrame FQ :=
  Frame ["step"; "loss"] (seq 0 120) (body (log 120)).

(** A table with two environments. *)
Definition two_envs : DataFrame FQ :=
  Frame ["step"; "loss"; "env"; "seed"] [0; 1; 0; 1]
    [[SFloat (Some 0%Q); SFloat (Some 2%Q); SStr "pong"; SInt 1];
     [SFloat (Some 1%Q); SFloat (Some 1%Q); SStr "pong"; SInt 1];
     [SFloat (Some 0%Q); SFloat (Some 3%Q); SStr "breakout"; SInt 2];
     [SFloat (Some 1%Q); SFloat (Some 2%Q); SStr "breakout"; SInt 2]].

(** A results directory that holds the table of two environments. *)
Definition w_table : world FQ :=
  World (list_to_map [("res", Dir); ("res/combined.csv", File (Csv (table_of_frame two_envs)))])
        [] [].

(** What [parse_filepath] makes of each entry of [res] in [w_runs], in
    the order [glob.glob] lists them. *)
Definition outcomes_runs : list (option (DataFrame FQ)) :=
  (λ run, match (parse_filepath run 100 w_runs).2 with
          | Ok o => o
          | Raise _ => None
          end) <$> glob_paths fs_runs "res/*".

(** [--results-dir res --create-csv --no-plot]. *)
Definition args_rebuild : args :=
  Args "res" true 100 None None None "average" true false None.

(** [--results-dir res --save-path plots/a/x.png]. *)
Definition args_save : args :=
  Args "res" false 100 None None None "average" false false (Some "plots/a/x.png").

(** [--results-dir res --save-path plots/a/x.png --seed median]. *)
Definition args_median : args :=
  Args "res" false 100 None None None "median" false false (Some "plots/a/x.png").

(** [--results-dir res --save-path plots/a/fig]. *)
Definition args_no_extension : args :=
  Args "res" false 100 None None None "average" false false (Some "plots/a/fig").

(** [--results-dir res --seed "[1, 2]"]. *)
Definition args_seed_list : args :=
  Args "res" false 100 None None None "[1, 2]" false false None.







End Sample.

(** * Properties *)

Set Default Proof Using "Type".

(** Membership goals over lists, by unfolding [∈] through [++] and [::]. *)
Ltac elems :=
  solve [set_unfold; intuition (simplify_eq/=; eauto; congruence)].

(** ** Lists laid out as rows *)

Section Layout.

Context {A : Type}.

Implicit Types (ls : list (list A)) (l : list A).

Lemma concat_rect_length c ls :
  Forall (λ r, length r = c) ls → length (concat ls) = length ls * c.
Proof.
  induction 1 as [|r ls Hr _ IH]; [done|].
  cbn [concat]. rewrite length_app, IH, Hr. cbn. lia.
Qed.

Lemma lookup_concat_rect c ls r row k x :
  Forall (λ r, length r = c) ls →
  ls !! r = Some row → row !! k = Some x →
  concat ls !! (r * c + k) = Some x.
Proof.
  intros Hall. revert r. induction Hall as [|r0 ls Hr0 _ IH]; intros r Hrow Hk; [done|].
  destruct r as [|r]; cbn [concat].
  - cbn in Hrow. injection Hrow as ->. rewrite lookup_app_l; [done|]. by eapply lookup_lt_Some.
  - cbn in Hrow. rewrite lookup_app_r by (rewrite Hr0; lia).
    replace (S r * c + k - length r0) with (r * c + k) by (rewrite Hr0; lia). eauto.
Qed.

Lemma take_concat_rect c ls m :
  Forall (λ r, length r = c) ls → take (m * c) (concat ls) = concat (take m ls).
Proof.
  intros Hall. revert m. induction Hall as [|r0 ls Hr0 _ IH]; intros m.
  - cbn [concat]. by rewrite !take_nil.
  - destruct m as [|m]; [done|]. cbn [concat take].
    replace (S m * c) with (length r0 + m * c) by (rewrite Hr0; lia).
    by rewrite take_app_add, IH.
Qed.

Lemma flat_map_chunk {B} (g : nat → list B) c n i s :
  (∀ j, length (g j) = c) → i < n →
  take c (drop (i * c) (flat_map g (seq s n))) = g (s + i).
Proof.
  intros Hg. revert s i. induction n as [|n IH]; intros s i Hi; [lia|].
  cbn [seq flat_map]. destruct i as [|i].
  - cbn [Nat.mul drop]. rewrite Nat.add_0_r. by apply take_app_length'.
  - replace (S i * c) with (length (g s) + i * c) by (rewrite Hg; lia).
    rewrite drop_app_add, IH by lia. f_equal. lia.
Qed.

Lemma flat_map_fmap {B C} (f : B → C) (g : nat → list B) (l : list nat) :
  f <$> flat_map g l = flat_map (λ i, f <$> g i) l.
Proof.
  induction l as [|i l IH]; [done|]. cbn [flat_map]. by rewrite fmap_app, IH.
Qed.

End Layout.

(** ** Tables, files and figures

    What holds of the tables, of the library calls and of [plot], whatever
    the libraries leave open. *)

Section Tables.

Context {F : Type} `{!Numeric F} `{!Libraries F}.

Abbreviation scalar := (scalar F).
Abbreviation table := (table F).
Abbreviation DataFrame := (DataFrame F).
Abbreviation figure := (figure F).
Abbreviation content := (content F).
Abbreviation node := (node F).
Abbreviation world := (world F).
Abbreviation io := (io F).

(** *** Frames read from a file *)

Lemma length_name_unnamed i names : length (name_unnamed i names) = length names.
Proof. revert i. induction names as [|n names IH]; intros i; cbn; [done|]. by rewrite IH. Qed.

Lemma str_length_app (s1 s2 : string) :
  String.length (s1 +:+ s2) = String.length s1 + String.length s2.
Proof.
  induction s1 as [|c s1 IH]; [done|].
  change (String c s1 +:+ s2) with (String c (s1 +:+ s2)). cbn. by rewrite IH.
Qed.

Lemma longest_lookup (counts : gmap string nat) k v :
  counts !! k = Some v → String.length k ≤ longest counts.
Proof.
  intros Hk. unfold longest. apply max_list_elem_of_le.
  apply list_elem_of_fmap. exists k. split; [done|].
  apply elem_of_elements, elem_of_dom. by eexists.
Qed.

Lemma longest_insert (counts : gmap string nat) k v v' :
  counts !! k = Some v → longest (<[k := v']> counts) = longest counts.
Proof.
  intros Hk. unfold longest. rewrite dom_insert_lookup_L; [done|]. by eexists.
Qed.

Lemma dedup_name_spec fuel (counts : gmap string nat) col counts' col' :
  longest counts < fuel + String.length col →
  dedup_name fuel counts col = (counts', col') →
  ¬ seen counts' col' ∧ ∀ k, seen counts' k ↔ seen counts k.
Proof.
  revert counts col. induction fuel as [|fuel IH]; intros counts col Hfuel; cbn.
  - intros [= <- <-]. split; [|done]. intros [n Hn%longest_lookup]. lia.
  - destruct (counts !! col) as [[|n]|] eqn:Hcol.
    + intros [= <- <-]. split; [|done]. intros [n Hn]. congruence.
    + intros Hrec. apply IH in Hrec.
      * destruct Hrec as [Hfresh Hseen]. split; [done|]. intros k. rewrite Hseen.
        unfold seen. destruct (decide (k = col)) as [->|Hne].
        -- rewrite lookup_insert_eq, Hcol. split; intros _; by eexists.
        -- by rewrite lookup_insert_ne.
      * rewrite (longest_insert _ _ _ _ Hcol), !str_length_app. cbn [String.length]. lia.
    + intros [= <- <-]. split; [|done]. intros [n Hn]. congruence.
Qed.

Lemma dedup_names_fresh (counts : gmap string nat) names :
  NoDup (dedup_names counts names) ∧
  ∀ c, c ∈ dedup_names counts names → ¬ seen counts c.
Proof.
  revert counts. induction names as [|name rest IH]; intros counts; cbn [dedup_names].
  - split; [constructor|]. intros c Hc. by apply elem_of_nil in Hc.
  - destruct (dedup_name (S (longest counts)) counts name) as [counts' col] eqn:Hname.
    apply dedup_name_spec in Hname as [Hfresh Hseen]; [|lia].
    destruct (IH (<[col := 1]> counts')) as [Hnodup Hrest].
    assert (∀ c, c ∈ dedup_names (<[col := 1]> counts') rest → c ≠ col ∧ ¬ seen counts c)
      as Hother.
    { intros c Hc. specialize (Hrest c Hc). split.
      - intros ->. apply Hrest. exists 0. apply lookup_insert_eq.
      - intros Hc'%Hseen. destruct (decide (c = col)) as [->|Hne]; [done|].
        apply Hrest. destruct Hc' as [n Hn]. exists n. by rewrite lookup_insert_ne. }
    split.
    + constructor; [|done]. intros Hin. by destruct (Hother _ Hin).
    + intros c [->|Hc]%elem_of_cons; [by rewrite <- Hseen|]. by destruct (Hother _ Hc).
Qed.

Lemma length_dedup_names (counts : gmap string nat) names :
  length (dedup_names counts names) = length names.
Proof.
  revert counts. induction names as [|name rest IH]; intros counts; cbn [dedup_names];
    [done|].
  destruct (dedup_name (S (longest counts)) counts name). cbn. by rewrite IH.
Qed.

(** A frame [pd.read_csv] returns has a column, its labels are distinct,
    and its rows are as long as its header. *)
Lemma frame_of_table_wf (t : table) (loss : DataFrame) :
  frame_of_table t = Ok loss →
  columns loss ≠ [] ∧ NoDup (columns loss) ∧
  Forall (λ r, length r = length (columns loss)) (rows loss).
Proof.
  unfold frame_of_table. case_bool_decide as Hh; [done|].
  destruct (existsb _ _) eqn:Hlong; [done|]. intros [= <-]. cbn. split_and!.
  - intros Hnil. apply Hh. apply (f_equal length) in Hnil.
    rewrite length_dedup_names, length_name_unnamed in Hnil. by destruct (header t).
  - apply dedup_names_fresh.
  - rewrite length_dedup_names, length_name_unnamed. apply Forall_fmap, Forall_forall. intros r Hr. cbn.
    rewrite length_app, length_replicate.
    destruct (length (header t) <? length r) eqn:Hlt.
    + assert (existsb (λ r, length (header t) <? length r) (data_lines t) = true) as Hex;
        [|congruence].
      apply existsb_exists. exists r. split; [by apply list_elem_of_In|done].
    + apply Nat.ltb_ge in Hlt. lia.
Qed.

(** *** Binning *)

Lemma py_stop_le (m n : nat) : m ≤ n → py_stop (Z.of_nat m) n = m.
Proof.
  intros Hm. unfold py_stop. destruct (Z.ltb_spec (Z.of_nat m) 0); [lia|].
  rewrite Nat2Z.id. lia.
Qed.

Lemma max_idx_floor (N : nat) (B : Z) :
  (0 < B)%Z →
  (Z.of_nat N - (Z.of_nat N - Z.of_nat N / B * B))%Z = Z.of_nat (N / Z.to_nat B * Z.to_nat B).
Proof.
  intros HB. rewrite Nat2Z.inj_mul, Nat2Z.inj_div. rewrite Z2Nat.id; lia.
Qed.

Lemma mapM_as_float (l : list scalar) :
  forallb (λ c, bool_decide (is_Some (as_float c))) l = true →
  mapM as_float l = Some ((λ c, default Fnan (as_float c)) <$> l).
Proof.
  intros Hl. apply mapM_Some_2, Forall2_fmap_r, Forall_Forall2_diag.
  apply Forall_forall. intros c Hc.
  rewrite forallb_forall in Hl. specialize (Hl c (proj1 (list_elem_of_In _ _) Hc)).
  apply bool_decide_eq_true in Hl. destruct Hl as [x Hx]. cbn. by rewrite Hx.
Qed.

Lemma mapM_as_int (l : list scalar) :
  forallb (λ c, bool_decide (is_Some (as_int c))) l = true →
  mapM as_int l = Some ((λ c, default 0%Z (as_int c)) <$> l).
Proof.
  intros Hl. apply mapM_Some_2, Forall2_fmap_r, Forall_Forall2_diag.
  apply Forall_forall. intros c Hc.
  rewrite forallb_forall in Hl. specialize (Hl c (proj1 (list_elem_of_In _ _) Hc)).
  apply bool_decide_eq_true in Hl. destruct Hl as [x Hx]. cbn. by rewrite Hx.
Qed.

Lemma forallb_concat_take {A} (p : A → bool) (ls : list (list A)) m :
  forallb (forallb p) ls = true → forallb p (concat (take m ls)) = true.
Proof.
  intros Hn. apply forallb_forall. intros c Hc.
  apply in_concat in Hc. destruct Hc as (r & Hr & Hc).
  apply list_elem_of_In, (subseteq_take m), list_elem_of_In in Hr.
  rewrite forallb_forall in Hn. specialize (Hn r Hr).
  rewrite forallb_forall in Hn. by apply Hn.
Qed.

Lemma numeric_concat_take (df : DataFrame) m :
  numeric_frame df = true →
  forallb (λ c, bool_decide (is_Some (as_float c))) (concat (take m (rows df))) = true.
Proof.
  unfold numeric_frame. intros [_ Hn]%andb_prop. by apply forallb_concat_take.
Qed.

Lemma float_at_lookup (df : DataFrame) r k row x :
  rows df !! r = Some row → row !! k = Some x →
  float_at df r k = default Fnan (as_float x).
Proof.
  intros Hr Hk. unfold float_at.
  by rewrite (nth_lookup_Some _ _ _ _ Hr), (nth_lookup_Some _ _ _ _ Hk).
Qed.

Lemma int_at_lookup (df : DataFrame) r k row x :
  rows df !! r = Some row → row !! k = Some x →
  int_at df r k = default 0%Z (as_int x).
Proof.
  intros Hr Hk. unfold int_at.
  by rewrite (nth_lookup_Some _ _ _ _ Hr), (nth_lookup_Some _ _ _ _ Hk).
Qed.

(** *** [int64] sums *)

Lemma wrap64_add_l (a z : Z) : wrap64 (wrap64 a + z) = wrap64 (a + z).
Proof.
  unfold wrap64. f_equal.
  replace ((a + 2 ^ 63) mod 2 ^ 64 - 2 ^ 63 + z + 2 ^ 63)%Z
    with ((a + 2 ^ 63) mod 2 ^ 64 + z)%Z by ring.
  rewrite Zplus_mod_idemp_l. f_equal. ring.
Qed.

(** Adding with wrap-around at every step is adding and wrapping once. *)
Lemma fold_wrap64 (l : list Z) (a : Z) :
  fold_left (λ s z, wrap64 (s + z)) l (wrap64 a) = wrap64 (fold_left Z.add l a).
Proof.
  revert a. induction l as [|z l IH]; intros a; [done|].
  cbn [fold_left]. rewrite wrap64_add_l. apply IH.
Qed.

Lemma wrap64_id (z : Z) : in_int64 z = true → wrap64 z = z.
Proof.
  unfold in_int64, wrap64. intros [Hlo Hhi]%andb_prop.
  apply Z.leb_le in Hlo. apply Z.ltb_lt in Hhi.
  change (2 ^ 64)%Z with (2 * 2 ^ 63)%Z. rewrite Z.mod_small; lia.
Qed.

(** The cell at row [r], column [k] in the buffer of a table. *)
Lemma nth_flat_cell {A} (f : scalar → A) (d : A) (ls : list (list scalar)) C r k row x :
  Forall (λ r, length r = C) ls →
  ls !! r = Some row → row !! k = Some x →
  nth (r * C + k) (f <$> concat ls) d = f x.
Proof.
  intros Hrect Hrow Hx. apply nth_lookup_Some.
  by rewrite list_lookup_fmap, (lookup_concat_rect C _ _ row k x).
Qed.

(** The mean lines 19 to 26 compute at row [i], column [k]: of [int64]
    sums for a log of integers, of [float64] sums otherwise. *)
Lemma bin_frame_cells other (loss : DataFrame) (B : Z) :
  (0 < B)%Z →
  columns loss ≠ [] →
  Forall (λ r, length r = length (columns loss)) (rows loss) →
  numeric_frame loss = true →
  bin_frame other loss B =
    Ok (Frame (columns loss) (seq 0 (length (rows loss) / Z.to_nat B))
          ((λ i, (λ k, SFloat
                         (if int_frame loss then wrapped_mean loss B i k
                          else Fdiv (fold_left Fadd
                                       ((λ j, float_at loss (i * Z.to_nat B + j) k)
                                          <$> seq 0 (Z.to_nat B))
                                       Fzero)
                                    (Fof_Z B)))
                   <$> seq 0 (length (columns loss)))
             <$> seq 0 (length (rows loss) / Z.to_nat B))).
Proof.
  intros HB Hcols Hrect Hnum.
  set (N := length (rows loss)). set (C := length (columns loss)).
  set (b := Z.to_nat B).
  assert (0 < b) as Hb by (subst b; lia).
  assert (0 < C) as HC by (subst C; destruct (columns loss); [done|cbn; lia]).
  assert (N / b * b ≤ N) as Hle by (rewrite Nat.mul_comm; apply Nat.Div0.mul_div_le).
  unfold bin_frame. fold N.
  destruct (Z.eqb_spec B 0) as [|_]; [lia|].
  rewrite max_idx_floor by done. fold b.
  unfold slice_rows, frame_values. rewrite Hnum. cbn [dtype_of shape data foldr]. fold N C.
  rewrite py_stop_le by done. rewrite Nat.mul_1_r.
  rewrite (take_concat_rect C) by done.
  assert (Forall (λ r, length r = C) (take (N / b * b) (rows loss))) as Hrect'.
  { by apply Forall_take. }
  assert (length (concat (take (N / b * b) (rows loss))) = N / b * b * C) as Hlen.
  { rewrite (concat_rect_length C) by done. rewrite length_take. fold N.
    by rewrite Nat.min_l. }
  unfold reshape_3d. cbn [data]. rewrite Hlen. fold b.
  destruct (Z.ltb_spec B 0) as [|_]; [lia|].
  assert (b * C ≠ 0) as Hknown by lia.
  rewrite (proj2 (Nat.eqb_neq _ _) Hknown).
  replace (N / b * b * C) with (N / b * (b * C)) by lia.
  rewrite Nat.Div0.mod_mul, Nat.div_mul by done. cbn [orb negb Nat.eqb].
  cbn [mbind result_bind]. unfold einsum_ijk_ik. cbn [dtype_of shape data].
  assert (∀ i j k, i < N / b → j < b → k < C →
            ∃ row x, rows loss !! (i * b + j) = Some row ∧ row !! k = Some x ∧
                     take (N / b * b) (rows loss) !! (i * b + j) = Some row) as Hcell.
  { intros i j k Hi Hj Hk. assert (i * b + j < N / b * b) as Hlt by nia.
    destruct (lookup_lt_is_Some_2 (take (N / b * b) (rows loss)) (i * b + j)) as [row Hrow].
    { rewrite length_take. fold N. by rewrite Nat.min_l. }
    assert (length row = C) as Hrowlen.
    { eapply (Forall_lookup_1 _ _ _ _ Hrect'); done. }
    destruct (lookup_lt_is_Some_2 row k) as [x Hx]; [lia|].
    exists row, x. split_and!; [|done..]. by rewrite lookup_take_lt in Hrow by done. }
  destruct (int_frame loss) eqn:Hint.
  - rewrite mapM_as_int by (by apply forallb_concat_take).
    cbn [mbind result_bind]. unfold pd_DataFrame, array_div. cbn [dtype_of shape data].
    fold C. rewrite Nat.eqb_refl. f_equal. f_equal.
    apply list_eq_Forall2, Forall2_fmap, Forall_Forall2_diag, Forall_forall.
    intros i Hi. apply elem_of_seq in Hi. destruct Hi as [_ Hi]. cbn in Hi.
    rewrite flat_map_fmap.
    rewrite (flat_map_chunk _ C) by (done || (intros; by rewrite !length_fmap, length_seq)).
    cbn [Nat.add]. rewrite <- !list_fmap_compose.
    apply list_eq_Forall2, Forall2_fmap, Forall_Forall2_diag, Forall_forall.
    intros k Hk. apply elem_of_seq in Hk. destruct Hk as [_ Hk]. cbn in Hk.
    cbn. unfold wrapped_mean, window_sum. fold b. do 3 f_equal.
    etrans; [|apply (fold_wrap64 _ 0%Z)]. change (wrap64 0) with 0%Z. f_equal.
    apply list_eq_Forall2, Forall2_fmap, Forall_Forall2_diag, Forall_forall.
    intros j Hj. apply elem_of_seq in Hj. destruct Hj as [_ Hj]. cbn in Hj.
    destruct (Hcell i j k) as (row & x & Hrow & Hx & Hrow'); [done..|].
    rewrite (nth_flat_cell _ _ _ C _ _ row x) by done.
    symmetry. by eapply int_at_lookup.
  - rewrite mapM_as_float by (by apply numeric_concat_take).
    cbn [mbind result_bind]. unfold pd_DataFrame, array_div. cbn [dtype_of shape data].
    fold C. rewrite Nat.eqb_refl. f_equal. f_equal.
    apply list_eq_Forall2, Forall2_fmap, Forall_Forall2_diag, Forall_forall.
    intros i Hi. apply elem_of_seq in Hi. destruct Hi as [_ Hi]. cbn in Hi.
    rewrite flat_map_fmap.
    rewrite (flat_map_chunk _ C) by (done || (intros; by rewrite !length_fmap, length_seq)).
    cbn [Nat.add]. rewrite <- !list_fmap_compose.
    apply list_eq_Forall2, Forall2_fmap, Forall_Forall2_diag, Forall_forall.
    intros k Hk. apply elem_of_seq in Hk. destruct Hk as [_ Hk]. cbn in Hk.
    cbn. fold b. do 3 f_equal.
    apply list_eq_Forall2, Forall2_fmap, Forall_Forall2_diag, Forall_forall.
    intros j Hj. apply elem_of_seq in Hj. destruct Hj as [_ Hj]. cbn in Hj.
    destruct (Hcell i j k) as (row & x & Hrow & Hx & Hrow'); [done..|].
    rewrite (nth_flat_cell _ _ _ C _ _ row x) by done.
    symmetry. by eapply float_at_lookup.
Qed.

(** Lines 19 to 26 go through for every log of numbers. *)
Lemma bin_frame_Ok other (loss : DataFrame) (B : Z) :
  (0 < B)%Z →
  columns loss ≠ [] →
  Forall (λ r, length r = length (columns loss)) (rows loss) →
  numeric_frame loss = true →
  ∃ binned, bin_frame other loss B = Ok binned.
Proof. intros. eexists. by apply bin_frame_cells. Qed.

(** The code of lines 19 to 26 computes the table of window means. *)
Lemma bin_frame_means other (loss : DataFrame) (B : Z) :
  (0 < B)%Z →
  columns loss ≠ [] →
  Forall (λ r, length r = length (columns loss)) (rows loss) →
  numeric_frame loss = true →
  int64_log loss B →
  bin_frame other loss B = Ok (binned_means loss B).
Proof.
  intros HB Hcols Hrect Hnum [_ Hsums].
  rewrite bin_frame_cells by done. unfold binned_means. do 2 f_equal.
  apply list_eq_Forall2, Forall2_fmap, Forall_Forall2_diag, Forall_forall.
  intros i Hi. apply elem_of_seq in Hi. destruct Hi as [_ Hi]. cbn in Hi.
  apply list_eq_Forall2, Forall2_fmap, Forall_Forall2_diag, Forall_forall.
  intros k Hk. apply elem_of_seq in Hk. destruct Hk as [_ Hk]. cbn in Hk.
  cbn. f_equal. unfold window_mean, wrapped_mean.
  destruct (int_frame loss); [|done]. by rewrite wrap64_id by (by apply Hsums).
Qed.

(** The rows of the full bins of two logs that differ past them only. *)
Lemma window_rows_agree (df df' : DataFrame) (B : Z) i j :
  (0 < B)%Z →
  let N := length (rows df) in
  length (rows df') = N →
  take (N - N mod Z.to_nat B) (rows df') = take (N - N mod Z.to_nat B) (rows df) →
  i < N / Z.to_nat B → j < Z.to_nat B →
  nth (i * Z.to_nat B + j) (rows df') [] = nth (i * Z.to_nat B + j) (rows df) [].
Proof.
  intros HB N Hlen Htake Hi Hj. set (b := Z.to_nat B) in *.
  assert (N - N mod b = b * (N / b)) as HN.
  { pose proof (Nat.div_mod_eq N b). lia. }
  rewrite HN in Htake. assert (i * b + j < b * (N / b)) as Hlt by nia.
  rewrite !nth_lookup.
  rewrite <- (lookup_take_lt (rows df') (b * (N / b))) by done.
  rewrite <- (lookup_take_lt (rows df) (b * (N / b))) by done.
  by rewrite Htake.
Qed.

Lemma window_sum_agree (df df' : DataFrame) (B : Z) i k :
  (0 < B)%Z →
  let N := length (rows df) in
  length (rows df') = N →
  take (N - N mod Z.to_nat B) (rows df') = take (N - N mod Z.to_nat B) (rows df) →
  i < N / Z.to_nat B →
  window_sum df' B i k = window_sum df B i k.
Proof.
  intros HB N Hlen Htake Hi. unfold window_sum. f_equal.
  apply list_eq_Forall2, Forall2_fmap, Forall_Forall2_diag, Forall_forall.
  intros j Hj. apply elem_of_seq in Hj. destruct Hj as [_ Hj]. cbn in Hj.
  unfold int_at. by rewrite (window_rows_agree df df' B i j).
Qed.

(** The rows past the last full bin do not matter to the window means. *)
Lemma binned_means_agree (df df' : DataFrame) (B : Z) :
  (0 < B)%Z →
  let N := length (rows df) in
  columns df' = columns df →
  length (rows df') = N →
  int_frame df' = int_frame df →
  take (N - N mod Z.to_nat B) (rows df') = take (N - N mod Z.to_nat B) (rows df) →
  binned_means df' B = binned_means df B.
Proof.
  intros HB N Hcols Hlen Hint Htake.
  unfold binned_means. rewrite Hcols, Hlen. fold N.
  f_equal. apply list_eq_Forall2, Forall2_fmap, Forall_Forall2_diag, Forall_forall.
  intros i Hi. apply elem_of_seq in Hi. destruct Hi as [_ Hi]. cbn in Hi.
  apply list_eq_Forall2, Forall2_fmap, Forall_Forall2_diag, Forall_forall.
  intros k _. cbn. unfold window_mean. rewrite Hint.
  destruct (int_frame df).
  - by rewrite (window_sum_agree df df' B i k).
  - do 3 f_equal.
    apply list_eq_Forall2, Forall2_fmap, Forall_Forall2_diag, Forall_forall.
    intros j Hj. apply elem_of_seq in Hj. destruct Hj as [_ Hj]. cbn in Hj.
    unfold float_at. by rewrite (window_rows_agree df df' B i j).
Qed.

Lemma einsum_ijk_ik_size other (a : ndarray scalar) (s : numbers F) (x : Z) :
  einsum_ijk_ik other a = Ok s →
  ∃ d0 d2, shape (array_div s x) = [d0; d2] ∧ length (data (array_div s x)) = d0 * d2.
Proof.
  unfold einsum_ijk_ik. destruct (shape a) as [|d0 [|d1 [|d2 [|]]]]; try done.
  destruct (dtype_of a).
  - destruct (mapM as_int (data a)); [|done]. intros [= <-]. exists d0, d2. cbn.
    split; [done|]. rewrite length_map, (flat_map_constant_length (c := d2)).
    + by rewrite length_seq.
    + intros i _. by rewrite length_map, length_seq.
  - destruct (mapM as_float (data a)); [|done]. intros [= <-]. exists d0, d2. cbn.
    split; [done|]. rewrite length_map, (flat_map_constant_length (c := d2)).
    + by rewrite length_seq.
    + intros i _. by rewrite length_map, length_seq.
  - destruct (other a) as [entry|]; [|done]. intros [= <-]. exists d0, d2. cbn.
    split; [done|]. rewrite length_map, (flat_map_constant_length (c := d2)).
    + by rewrite length_seq.
    + intros i _. by rewrite length_map, length_seq.
Qed.

Lemma pd_DataFrame_rectangular (a : ndarray F) n c cols (df : DataFrame) :
  shape a = [n; c] → length (data a) = n * c →
  pd_DataFrame a cols = Ok df →
  rectangular df ∧ columns df = cols ∧ length (rows df) = n.
Proof.
  intros Hshape Hlen. unfold pd_DataFrame. rewrite Hshape.
  destruct (Nat.eqb_spec c (length cols)) as [Hc|]; [|done]. intros [= <-].
  unfold rectangular. cbn. rewrite length_fmap, length_seq. split_and!; [|done..].
  apply Forall_fmap, Forall_forall. intros i Hi. apply elem_of_seq in Hi. cbn.
  rewrite length_fmap, length_take, length_drop, Hlen, <- Hc. nia.
Qed.

Lemma bin_frame_rectangular other (loss binned : DataFrame) B :
  bin_frame other loss B = Ok binned →
  rectangular binned ∧ columns binned = columns loss.
Proof.
  unfold bin_frame. destruct (B =? 0)%Z; [done|].
  destruct (reshape_3d _ _ _) as [blocks|]; [|done]. cbn.
  destruct (einsum_ijk_ik other blocks) as [sums|] eqn:Hsums; [|done]. cbn.
  destruct (einsum_ijk_ik_size _ _ _ B Hsums) as (d0 & d2 & Hshape & Hlen).
  intros Hdf. eapply (pd_DataFrame_rectangular _ d0 d2) in Hdf; [|done..].
  by destruct Hdf as (? & ? & _).
Qed.

(** *** Columns *)

Lemma column_pos_Some c cols j :
  column_pos c cols = Some j → cols !! j = Some c.
Proof.
  unfold column_pos. destruct (list_find _ cols) as [[i x]|] eqn:Hfind; [|done].
  intros [= <-]. apply list_find_Some in Hfind. by destruct Hfind as (? & -> & _).
Qed.

Lemma column_pos_elem_of c cols : c ∈ cols → is_Some (column_pos c cols).
Proof.
  intros Hc. unfold column_pos.
  destruct (list_find_elem_of (λ c', c' = c) cols c Hc eq_refl) as [[j x] ->]. by eexists.
Qed.

Lemma column_pos_not_elem_of c cols : c ∉ cols → column_pos c cols = None.
Proof.
  intros Hc. unfold column_pos.
  destruct (list_find _ cols) as [[i x]|] eqn:Hfind; [|done].
  apply list_find_Some in Hfind. destruct Hfind as (Hx & -> & _).
  destruct Hc. by eapply list_elem_of_lookup_2.
Qed.

Lemma column_pos_app_l c cols k j :
  column_pos c cols = Some j → column_pos c (cols ++ [k]) = Some j.
Proof.
  unfold column_pos. destruct (list_find _ cols) as [[i x]|] eqn:Hfind; [|done].
  intros [= <-]. by rewrite (list_find_app_l _ _ _ _ _ Hfind).
Qed.

Lemma column_pos_app_new k cols :
  k ∉ cols → column_pos k (cols ++ [k]) = Some (length cols).
Proof.
  intros Hk. pose proof (column_pos_not_elem_of _ _ Hk) as Hnone.
  unfold column_pos in *. destruct (list_find _ cols) eqn:Hfind; [done|].
  rewrite list_find_app_r by done. cbn. by rewrite decide_True.
Qed.

Lemma set_column_rectangular k v (df : DataFrame) :
  rectangular df → rectangular (set_column k v df).
Proof.
  unfold rectangular, set_column. intros Hrect. case_decide; cbn.
  - apply Forall_fmap. eapply Forall_impl; [done|]. intros r Hr. cbn in *.
    rewrite length_zip_with. lia.
  - apply Forall_fmap. eapply Forall_impl; [done|]. intros r Hr. cbn in *.
    rewrite !length_app. cbn. lia.
Qed.

Lemma set_column_length_rows k v (df : DataFrame) :
  length (rows (set_column k v df)) = length (rows df).
Proof. unfold set_column. case_decide; cbn; by rewrite length_fmap. Qed.

Lemma set_column_keeps_columns k v (df : DataFrame) c :
  c ∈ columns df → c ∈ columns (set_column k v df).
Proof. unfold set_column. case_decide; cbn; [done|]. elems. Qed.

Lemma set_column_NoDup k v (df : DataFrame) :
  NoDup (columns df) → NoDup (columns (set_column k v df)).
Proof.
  intros Hnodup. unfold set_column. case_decide as Hk; cbn; [done|].
  apply NoDup_app. split_and!; [done| |apply NoDup_singleton].
  by intros c Hc ->%list_elem_of_singleton.
Qed.

Lemma set_column_elem_of k v (df : DataFrame) : k ∈ columns (set_column k v df).
Proof. unfold set_column. case_decide; cbn; [done|]. elems. Qed.

(** After [df[k] = v] every row holds [v] under [k]. *)
Lemma set_column_cell k v (df : DataFrame) :
  rectangular df →
  Forall (λ r, cell_at (columns (set_column k v df)) k r = v) (rows (set_column k v df)).
Proof.
  unfold rectangular, set_column. intros Hrect. case_decide as Hk; cbn.
  - destruct (column_pos_elem_of _ _ Hk) as [j Hj].
    pose proof (column_pos_Some _ _ _ Hj) as Hcol.
    apply Forall_fmap. eapply Forall_impl; [done|]. intros r Hr. cbn in *.
    unfold cell_at. rewrite Hj.
    destruct (lookup_lt_is_Some_2 r j) as [x Hx].
    { rewrite Hr. by eapply lookup_lt_Some. }
    apply nth_lookup_Some. rewrite lookup_zip_with, Hcol, Hx. cbn. by rewrite decide_True.
  - apply Forall_fmap. eapply Forall_impl; [done|]. intros r Hr. cbn in *.
    unfold cell_at. rewrite column_pos_app_new by done.
    apply nth_lookup_Some. rewrite lookup_app_r by lia. by rewrite Hr, Nat.sub_diag.
Qed.

(** [df[k'] = v'] leaves the cells under another label alone. *)
Lemma set_column_other_cell k' v' k v (df : DataFrame) :
  rectangular df → k ≠ k' → k ∈ columns df →
  Forall (λ r, cell_at (columns df) k r = v) (rows df) →
  Forall (λ r, cell_at (columns (set_column k' v' df)) k r = v) (rows (set_column k' v' df)).
Proof.
  unfold rectangular, set_column. intros Hrect Hne Hk Hcells.
  destruct (column_pos_elem_of _ _ Hk) as [j Hj].
  pose proof (column_pos_Some _ _ _ Hj) as Hcol.
  pose proof (List.Forall_and Hrect Hcells) as Hall. clear Hrect Hcells.
  case_decide as Hk'; cbn.
  - apply Forall_fmap. eapply Forall_impl; [done|]. intros r [Hr Hcell]. cbn in *.
    unfold cell_at in *. rewrite Hj in *.
    destruct (lookup_lt_is_Some_2 r j) as [x Hx].
    { rewrite Hr. by eapply lookup_lt_Some. }
    rewrite (nth_lookup_Some _ _ _ _ Hx) in Hcell. subst x.
    apply nth_lookup_Some. rewrite lookup_zip_with, Hcol, Hx. cbn. by rewrite decide_False.
  - apply Forall_fmap. eapply Forall_impl; [done|]. intros r [Hr Hcell]. cbn in *.
    unfold cell_at in *. rewrite (column_pos_app_l _ _ _ _ Hj). rewrite Hj in Hcell.
    destruct (lookup_lt_is_Some_2 r j) as [x Hx].
    { rewrite Hr. by eapply lookup_lt_Some. }
    rewrite (nth_lookup_Some _ _ _ _ Hx) in Hcell. subst x.
    apply nth_lookup_Some. by rewrite lookup_app_l by (by eapply lookup_lt_Some).
Qed.

(** [df[k] = v] leaves the column positions under other labels alone. *)
Lemma set_column_other_pos k v (df : DataFrame) j c :
  rectangular df → columns df !! j = Some c → c ≠ k →
  columns (set_column k v df) !! j = Some c ∧
  ∀ i, rows (set_column k v df) !! i ≫= (.!! j) = rows df !! i ≫= (.!! j).
Proof.
  unfold rectangular, set_column. intros Hrect Hj Hne. case_decide; cbn.
  - split; [done|]. intros i. rewrite list_lookup_fmap.
    destruct (rows df !! i) as [r|] eqn:Hr; [|done]. cbn.
    rewrite lookup_zip_with, Hj. cbn. destruct (r !! j); [|done]. cbn.
    by rewrite decide_False.
  - split; [by apply lookup_app_l_Some|]. intros i. rewrite list_lookup_fmap.
    destruct (rows df !! i) as [r|] eqn:Hr; [|done]. cbn.
    apply lookup_app_l. rewrite (Forall_lookup_1 _ _ _ _ Hrect Hr).
    by eapply lookup_lt_Some.
Qed.

(** *** The metadata dictionary *)

Lemma dict_set_keys k v (d : dict F) :
  (dict_set k v d).*1 = if decide (k ∈ d.*1) then d.*1 else d.*1 ++ [k].
Proof.
  induction d as [|[k' v'] d IH]; cbn.
  - by rewrite decide_False by elems.
  - destruct (decide (k' = k)) as [->|Hne]; cbn.
    + by rewrite decide_True by elems.
    + rewrite IH. destruct (decide (k ∈ d.*1)).
      * by rewrite decide_True by elems.
      * by rewrite decide_False by elems.
Qed.

Lemma dict_set_NoDup k v (d : dict F) : NoDup d.*1 → NoDup (dict_set k v d).*1.
Proof.
  intros Hd. rewrite dict_set_keys. case_decide; [done|].
  apply NoDup_app. split_and!; [done|elems|apply NoDup_singleton].
Qed.

Lemma json_load_acc_NoDup (members : list (string * scalar)) (d : dict F) :
  NoDup d.*1 → NoDup (foldl (λ d kv, dict_set kv.1 kv.2 d) d members).*1.
Proof.
  revert d. induction members as [|[k v] members IH]; intros d Hd; cbn; [done|].
  by apply IH, dict_set_NoDup.
Qed.

Lemma json_load_NoDup (members : list (string * scalar)) : NoDup (json_load members).*1.
Proof. apply json_load_acc_NoDup. constructor. Qed.

Lemma json_load_acc_keys (members : list (string * scalar)) (d : dict F) k :
  k ∈ d.*1 ∨ k ∈ members.*1 → k ∈ (foldl (λ d kv, dict_set kv.1 kv.2 d) d members).*1.
Proof.
  revert d. induction members as [|[k' v'] members IH]; intros d Hk; cbn.
  - elems.
  - apply IH. rewrite dict_set_keys. cbn in Hk. case_decide; elems.
Qed.

(** Every key of the file is a key of the dictionary. *)
Lemma json_load_keys (members : list (string * scalar)) k :
  k ∈ members.*1 → k ∈ (json_load members).*1.
Proof. intros Hk. apply json_load_acc_keys. by right. Qed.

Lemma dict_set_fresh k v (d : dict F) : k ∉ d.*1 → dict_set k v d = d ++ [(k, v)].
Proof.
  induction d as [|[k' v'] d IH]; intros Hk; cbn; [done|].
  cbn in Hk. rewrite decide_False by elems. rewrite IH by elems. done.
Qed.

Lemma json_load_acc_fresh (members : list (string * scalar)) (d : dict F) :
  NoDup (d.*1 ++ members.*1) →
  foldl (λ d kv, dict_set kv.1 kv.2 d) d members = d ++ members.
Proof.
  revert d. induction members as [|[k v] members IH]; intros d Hnodup; cbn.
  - by rewrite app_nil_r.
  - cbn in Hnodup. apply NoDup_app in Hnodup. destruct Hnodup as (Hd & Hfresh & Hms).
    apply NoDup_cons in Hms. destruct Hms as [Hk Hms].
    rewrite dict_set_fresh by (intros Hin; apply (Hfresh _ Hin); elems).
    rewrite IH; [by rewrite <- app_assoc|]. rewrite fmap_app. cbn.
    apply NoDup_app. split_and!.
    + apply NoDup_app. split_and!; [done|elems|apply NoDup_singleton].
    + intros x Hx. apply elem_of_app in Hx. destruct Hx as [Hx|Hx]; [|elems].
      intros Hx'. apply (Hfresh _ Hx). elems.
    + done.
Qed.

(** A file without repeated keys is loaded as it is. *)
Lemma json_load_NoDup_id (members : list (string * scalar)) :
  NoDup members.*1 → json_load members = members.
Proof. intros Hms. unfold json_load. by rewrite json_load_acc_fresh. Qed.

(** *** Attaching the metadata *)

Lemma attach_params_cons k v (d : dict F) (df : DataFrame) :
  attach_params ((k, v) :: d) df = attach_params d (set_column k v df).
Proof. done. Qed.


Lemma attach_params_NoDup (d : dict F) (df : DataFrame) :
  NoDup (columns df) → NoDup (columns (attach_params d df)).
Proof.
  revert df. induction d as [|[k v] d IH]; intros df Hnodup; [done|].
  rewrite attach_params_cons. by apply IH, set_column_NoDup.
Qed.

Lemma attach_params_length_rows (d : dict F) (df : DataFrame) :
  length (rows (attach_params d df)) = length (rows df).
Proof.
  revert df. induction d as [|[k v] d IH]; intros df; [done|].
  by rewrite attach_params_cons, IH, set_column_length_rows.
Qed.

Lemma attach_params_keeps (d : dict F) (df : DataFrame) k v :
  rectangular df → k ∉ d.*1 → k ∈ columns df →
  Forall (λ r, cell_at (columns df) k r = v) (rows df) →
  k ∈ columns (attach_params d df) ∧
  Forall (λ r, cell_at (columns (attach_params d df)) k r = v) (rows (attach_params d df)).
Proof.
  revert df. induction d as [|[k' v'] d IH]; intros df Hrect Hk Hcol Hcells; [done|].
  rewrite attach_params_cons. cbn in Hk. apply IH.
  - by apply set_column_rectangular.
  - elems.
  - by apply set_column_keeps_columns.
  - apply set_column_other_cell; [done|elems|done..].
Qed.

(** After the loop of lines 29 and 30 every key is a column that holds the
    value of the key in every row. *)
Lemma attach_params_sets (d : dict F) (df : DataFrame) k v :
  rectangular df → NoDup d.*1 → (k, v) ∈ d →
  k ∈ columns (attach_params d df) ∧
  Forall (λ r, cell_at (columns (attach_params d df)) k r = v) (rows (attach_params d df)).
Proof.
  revert df. induction d as [|[k' v'] d IH]; intros df Hrect Hnodup Hkv; [elems|].
  cbn in Hnodup. apply NoDup_cons in Hnodup. destruct Hnodup as [Hk' Hnodup].
  rewrite attach_params_cons.
  apply elem_of_cons in Hkv. destruct Hkv as [[= -> ->]|Hkv].
  - apply attach_params_keeps;
      [by apply set_column_rectangular|done|apply set_column_elem_of|by apply set_column_cell].
  - apply IH; [by apply set_column_rectangular|done..].
Qed.

Lemma attach_params_other_pos (d : dict F) (df : DataFrame) j c :
  rectangular df → columns df !! j = Some c → c ∉ d.*1 →
  columns (attach_params d df) !! j = Some c ∧
  ∀ i, rows (attach_params d df) !! i ≫= (.!! j) = rows df !! i ≫= (.!! j).
Proof.
  revert df. induction d as [|[k v] d IH]; intros df Hrect Hj Hc; [done|].
  rewrite attach_params_cons. cbn in Hc.
  destruct (set_column_other_pos k v df j c) as [Hj' Hcells]; [done|done|elems|].
  destruct (IH (set_column k v df)) as [Hj'' Hcells'];
    [by apply set_column_rectangular|done|elems|].
  split; [done|]. intros i. by rewrite Hcells', Hcells.
Qed.

(** *** [pd.concat] *)

Lemma length_concat_fmap {A B} (f : A → list B) (l : list A) :
  length (concat (f <$> l)) = sum_list ((length ∘ f) <$> l).
Proof.
  induction l as [|x l IH]; [done|]. cbn. by rewrite length_app, IH.
Qed.

Lemma elem_of_union_acc (colss : list (list string)) (acc : list string) c :
  c ∈ foldl (λ acc cs, acc ++ list_difference cs acc) acc colss ↔
  c ∈ acc ∨ ∃ cs, cs ∈ colss ∧ c ∈ cs.
Proof.
  revert acc. induction colss as [|cs colss IH]; intros acc; cbn.
  - split; [by left|]. intros [Hc|(cs & Hcs & _)]; [done|]. by apply elem_of_nil in Hcs.
  - rewrite IH, elem_of_app, list_elem_of_difference. split.
    + intros [[Hc|[Hc _]]|(cs' & Hcs' & Hc)]; [by left|right..].
      * exists cs. split; [apply list_elem_of_here|done].
      * exists cs'. split; [by apply list_elem_of_further|done].
    + intros [Hc|(cs' & Hcs' & Hc)]; [by left; left|].
      apply elem_of_cons in Hcs'. destruct Hcs' as [->|Hcs'].
      * destruct (decide (c ∈ acc)); [by left; left|by left; right].
      * right. by exists cs'.
Qed.

Lemma elem_of_union_columns (colss : list (list string)) c :
  c ∈ union_columns colss ↔ ∃ cs, cs ∈ colss ∧ c ∈ cs.
Proof.
  unfold union_columns. rewrite elem_of_union_acc. split; [|by right].
  intros [Hc|Hc]; [|done]. by apply elem_of_nil in Hc.
Qed.

(** Concatenating at least one frame, with labels that do not repeat
    within a frame, stacks the rows and unites the columns. *)
Lemma pd_concat_stacks (dfs : list DataFrame) :
  dfs ≠ [] →
  Forall (λ df, NoDup (columns df)) dfs →
  ∃ out,
    pd_concat dfs = Ok out ∧
    length (rows out) = sum_list ((length ∘ rows) <$> dfs) ∧
    ∀ c, c ∈ columns out ↔ ∃ df, df ∈ dfs ∧ c ∈ columns df.
Proof.
  intros Hne Hnodup. unfold pd_concat. destruct dfs as [|df0 rest]; [done|].
  set (dfs := df0 :: rest) in *.
  destruct (forallb _ dfs) eqn:Hsame.
  - eexists. split_and!; [done|apply (length_concat_fmap rows)|]. cbn. intros c. split.
    + intros Hc. exists df0. split; [apply elem_of_cons; by left|done].
    + intros (df & Hdf & Hc). rewrite forallb_forall in Hsame.
      specialize (Hsame df (proj1 (list_elem_of_In _ _) Hdf)).
      apply bool_decide_eq_true in Hsame. by rewrite <- Hsame.
  - destruct (existsb _ dfs) eqn:Hdup.
    + apply existsb_exists in Hdup. destruct Hdup as (df & Hdf & Hdup).
      unfold has_dup in Hdup. apply bool_decide_eq_true in Hdup.
      destruct Hdup. rewrite Forall_forall in Hnodup. by apply Hnodup, list_elem_of_In.
    + eexists. split_and!; [done| |]; cbn [rows columns].
      * rewrite length_concat_fmap.
        f_equal. apply list_fmap_ext. intros _ df _. cbn. by rewrite length_fmap.
      * intros c. rewrite elem_of_union_columns. split.
        -- intros (cs & Hcs & Hc). apply list_elem_of_fmap in Hcs.
           destruct Hcs as (df & -> & Hdf). by exists df.
        -- intros (df & Hdf & Hc). exists (columns df). split; [|done].
           apply list_elem_of_fmap. by exists df.
Qed.

Lemma omap_replicate_None {A} n : omap id (replicate n (None : option A)) = [].
Proof. induction n as [|n IH]; [done|]. by cbn. Qed.

(** *** Computations that only log *)

Lemma log_only_fs {A} (c : io A) w : log_only c → fs (c w).1 = fs w.
Proof. intros Hc. by rewrite Hc. Qed.

Lemma log_only_shown {A} (c : io A) w : log_only c → shown (c w).1 = shown w.
Proof. intros Hc. by rewrite Hc. Qed.

Lemma log_only_result {A} (c : io A) w w' :
  log_only c → fs w = fs w' → (c w).2 = (c w').2.
Proof. intros Hc Hfs. rewrite (Hc w), (Hc w'). cbn. by rewrite Hfs. Qed.

Lemma log_only_ret {A} (a : A) : log_only (mret a : io A).
Proof. intros [m out sh]. cbn. by rewrite app_nil_r. Qed.

Lemma log_only_lift {A} (r : result A) : log_only (lift r : io A).
Proof. intros [m out sh]. cbn. by rewrite app_nil_r. Qed.

Lemma log_only_raise {A} (e : exn) : log_only (raise e : io A).
Proof. intros [m out sh]. cbn. by rewrite app_nil_r. Qed.

Lemma log_only_print line : log_only (print line : io ()).
Proof. by intros [m out sh]. Qed.

Lemma log_only_bind {A B} (c : io A) (f : A → io B) :
  log_only c → (∀ a, log_only (f a)) → log_only (c ≫= f).
Proof.
  intros Hc Hf w. unfold mbind, io_bind.
  rewrite (Hc w). set (w0 := World (fs w) [] []).
  pose proof (Hc w0) as Hc0. cbn in Hc0. fold w0 in Hc0.
  destruct (c w0) as [w1 [a|e]] eqn:Hcw0; cbn in *.
  - injection Hc0 as ->. cbn.
    rewrite (Hf a (World (fs w) (stdout w ++ stdout w1) (shown w))).
    rewrite (Hf a (World (fs w) (stdout w1) [])). cbn.
    by rewrite app_assoc.
  - done.
Qed.

Lemma log_only_try_except {A} (c : io A) (h : exn → option (io A)) :
  log_only c → (∀ e k, h e = Some k → log_only k) → log_only (try_except c h).
Proof.
  intros Hc Hh w. unfold try_except.
  rewrite (Hc w). set (w0 := World (fs w) [] []).
  pose proof (Hc w0) as Hc0. cbn in Hc0. fold w0 in Hc0.
  destruct (c w0) as [w1 [a|e]] eqn:Hcw0; cbn in *; [done|].
  destruct (h e) as [k|] eqn:Hk; [|done].
  injection Hc0 as ->. cbn.
  rewrite (Hh _ _ Hk (World (fs w) (stdout w ++ stdout w1) (shown w))).
  rewrite (Hh _ _ Hk (World (fs w) (stdout w1) [])). cbn.
  by rewrite app_assoc.
Qed.

Lemma log_only_open_file path : log_only (open_file path : io content).
Proof.
  intros [m out sh]. unfold open_file. cbn.
  destruct (m !! path) as [[|]|]; cbn; by rewrite app_nil_r.
Qed.

Lemma log_only_glob pattern : log_only (glob_glob pattern : io (list string)).
Proof. intros [m out sh]. unfold glob_glob. cbn. by rewrite app_nil_r. Qed.

(** *** Computations that show nothing *)

Lemma keeps_screen_log_only {A} (c : io A) : log_only c → keeps_screen c.
Proof. intros Hc w. by apply log_only_shown. Qed.

Lemma keeps_screen_ret {A} (a : A) : keeps_screen (mret a : io A).
Proof. done. Qed.

Lemma keeps_screen_bind {A B} (c : io A) (f : A → io B) :
  keeps_screen c → (∀ a, keeps_screen (f a)) → keeps_screen (c ≫= f).
Proof.
  intros Hc Hf w. unfold mbind, io_bind. specialize (Hc w).
  destruct (c w) as [w1 [a|e]]; cbn in *; [|done]. by rewrite Hf.
Qed.

Lemma keeps_screen_write_file path (c : content) : keeps_screen (write_file path c).
Proof.
  intros w. unfold write_file. case_bool_decide; [done|].
  destruct (fs w !! path) as [[|]|]; try done; by destruct (is_dir _ _).
Qed.

Lemma keeps_screen_makedirs name : keeps_screen (os_makedirs name : io ()).
Proof.
  intros w. unfold os_makedirs. case_bool_decide; [done|].
  destruct (is_file _); [done|]. by destruct (through_file _ _).
Qed.

(** *** Directories *)

Lemma str_strip_prefix_app p s : str_strip_prefix p (p +:+ s) = Some s.
Proof.
  induction p as [|c p IH]; [by destruct s|].
  change (String c p +:+ s) with (String c (p +:+ s)). cbn [str_strip_prefix].
  by rewrite Ascii.eqb_refl.
Qed.

(** [combined.csv] is an entry of the results directory. *)
Lemma combined_csv_is_child d : is_child d (os_path_join d "combined.csv") = true.
Proof. unfold is_child, os_path_join. cbn. by rewrite str_strip_prefix_app. Qed.

Lemma lookup_mkdirs (m : gmap string node) (dirs : list string) d :
  d ∈ dirs → foldr (λ d m, <[d := Dir]> m) m dirs !! d = Some Dir.
Proof.
  induction dirs as [|d' dirs IH]; intros Hd; [elems|]. cbn.
  destruct (decide (d' = d)) as [->|Hne]; [apply lookup_insert_eq|].
  rewrite lookup_insert_ne by done. apply IH. elems.
Qed.

Lemma lookup_mkdirs_ne (m : gmap string node) (dirs : list string) p :
  p ∉ dirs → foldr (λ d m, <[d := Dir]> m) m dirs !! p = m !! p.
Proof.
  induction dirs as [|d' dirs IH]; intros Hp; [done|]. cbn.
  rewrite lookup_insert_ne by elems. apply IH. elems.
Qed.

Lemma os_makedirs_Ok_inv name (w w' : world) :
  os_makedirs name w = (w', Ok ()) →
  fs w' = foldr (λ d m, <[d := Dir]> m) (fs w) (ancestors name ++ [name]) ∧
  Forall (λ d, is_file (fs w !! d) = false) (ancestors name ++ [name]).
Proof.
  unfold os_makedirs. case_bool_decide; [done|].
  destruct (is_file (fs w !! name)) eqn:Hfile; [done|].
  destruct (through_file (fs w) name) eqn:Hthrough; [done|].
  intros [= <-]. split; [done|]. apply Forall_app. split; [|by constructor].
  unfold through_file in Hthrough. apply Forall_forall. intros d Hd.
  destruct (is_file (fs w !! d)) eqn:Hd'; [|done].
  rewrite <- Hthrough. symmetry. apply existsb_exists. exists d.
  split; [by apply list_elem_of_In|done].
Qed.

(** *** [plot] *)

Lemma categorical_order_NoDup (values : list scalar) :
  NoDup (categorical_order values).
Proof. apply NoDup_filter, NoDup_remove_dups. Qed.

Lemma elem_of_categorical_order (values : list scalar) v :
  v ∈ categorical_order values ↔ v ∈ values ∧ is_null v = false.
Proof.
  unfold categorical_order, unique.
  rewrite list_elem_of_filter, elem_of_remove_dups. tauto.
Qed.

Lemma categorical_order_length (values : list scalar) :
  length (categorical_order values) ≤ length (unique values).
Proof. apply length_filter. Qed.

(** Without a missing value the levels are the distinct values. *)
Lemma categorical_order_no_null (values : list scalar) :
  Forall (λ v, is_null v = false) values →
  categorical_order values = unique values.
Proof.
  intros Hvalues. unfold categorical_order.
  assert (Forall (λ v, is_null v = false) (unique values)) as Hunique.
  { rewrite Forall_forall in Hvalues. apply Forall_forall.
    intros v Hv. apply Hvalues. by apply elem_of_remove_dups. }
  induction Hunique as [|v l Hv _ IH]; [done|].
  by rewrite filter_cons_True, IH.
Qed.

Lemma facet_figure_run data hue style seed B (w : world) :
  facet_figure data hue style seed B w =
    (World (fs w) (stdout w ++ [plot_banner hue style seed]) (shown w),
     facet_result data hue style seed B).
Proof.
  unfold facet_result, facet_figure, mbind, io_bind, print, lift, raise, mret, io_ret.
  cbn [fs stdout shown].
  destruct (get_column data "env") as [envs|e]; [|done].
  destruct (is_list seed || seed_eq seed "average").
  { by destruct (sns_relplot _). }
  destruct (seed_eq seed "all"); [|done]. by destruct (sns_relplot _).
Qed.

(** What a figure [plot] builds looks like. *)
Lemma facet_result_Ok data hue style seed B g :
  facet_result data hue style seed B = Ok g →
  ∃ envs,
    get_column data "env" = Ok envs ∧
    valid_seed seed = true ∧
    categorical_order envs ≠ [] ∧
    ax_facet <$> fig_axes g = categorical_order envs ∧
    fig_ncol g = (if 1 <? length (unique envs) then 2 else 1) ∧
    fig_height g = (if 2 <? length (unique envs) then 3%Z else 5%Z) ∧
    Forall (λ ax, ax_xlabel ax = "step in " +:+ str_Z B +:+ "s" ∧
                  ax_ylim ax = Some (0, 3)%Z) (fig_axes g).
Proof.
  unfold facet_result, facet_figure, mbind, io_bind, print, lift, raise, mret, io_ret.
  cbn [fs stdout shown]. unfold valid_seed.
  destruct (get_column data "env") as [envs|e] eqn:Henvs; [|done].
  assert (∀ call g0,
            rp_data call = data → rp_col call = "env" →
            rp_col_wrap call = (if 1 <? length (unique envs) then 2 else 1) →
            rp_height call = (if 2 <? length (unique envs) then 3%Z else 5%Z) →
            sns_relplot call = Ok g0 →
            categorical_order envs ≠ [] ∧
            ax_facet <$> fig_axes (label_axes B g0) = categorical_order envs ∧
            fig_ncol (label_axes B g0) = (if 1 <? length (unique envs) then 2 else 1) ∧
            fig_height (label_axes B g0) = (if 2 <? length (unique envs) then 3%Z else 5%Z) ∧
            Forall (λ ax, ax_xlabel ax = "step in " +:+ str_Z B +:+ "s" ∧
                          ax_ylim ax = Some (0, 3)%Z) (fig_axes (label_axes B g0)))
    as Hrelplot.
  { intros call g0 Hdata Hcol Hwrap Hheight. unfold sns_relplot.
    destruct (negb _); [done|]. rewrite Hdata, Hcol, Henvs. cbn [mbind result_bind].
    case_bool_decide as Hfacets; [done|]. intros [= <-]. cbn.
    split_and!; [done| |done|done|].
    - rewrite <- !list_fmap_compose. by rewrite list_fmap_id.
    - apply Forall_fmap, Forall_fmap, Forall_forall. by intros. }
  destruct (is_list seed || seed_eq seed "average") eqn:Hmode.
  - destruct (sns_relplot _) as [g0|] eqn:Hg0; [|done]. intros [= <-].
    apply Hrelplot in Hg0; [|done..]. destruct Hg0 as (? & ? & ? & ? & ?).
    by exists envs.
  - destruct (seed_eq seed "all") eqn:Hall; [|done].
    destruct (sns_relplot _) as [g0|] eqn:Hg0; [|done]. intros [= <-].
    apply Hrelplot in Hg0; [|done..]. destruct Hg0 as (? & ? & ? & ? & ?).
    by exists envs.
Qed.

(** An unrecognized seed stops [plot] before it has a figure. *)
Lemma facet_result_invalid_seed data hue style seed B :
  valid_seed seed = false →
  facet_result data hue style seed B =
    match get_column data "env" with
    | Ok _ => Raise (ValueError (str_seed seed +:+ " not a recognized choice"))
    | Raise e => Raise e
    end.
Proof.
  unfold valid_seed. intros [Hmode Hall]%orb_false_elim.
  unfold facet_result, facet_figure, mbind, io_bind, print, lift, raise, mret, io_ret.
  cbn [fs stdout shown]. destruct (get_column data "env"); [|done].
  by rewrite Hmode, Hall.
Qed.

Lemma plot_run data hue style seed B savepath show (w : world) :
  plot data hue style seed B savepath show w =
    let w1 := World (fs w) (stdout w ++ [plot_banner hue style seed]) (shown w) in
    match facet_result data hue style seed B with
    | Raise e => (w1, Raise e)
    | Ok g =>
        (match savepath with
         | Some path => savefig g path
         | None => mret ()
         end;;
         if show then plt_show g else mret ()) w1
    end.
Proof.
  unfold plot. unfold mbind at 1, io_bind at 1. rewrite facet_figure_run.
  by destruct (facet_result _ _ _ _ _).
Qed.

Lemma get_column_has_column (data : DataFrame) c :
  has_column data c = true → ∃ values, get_column data c = Ok values.
Proof.
  intros Hc. unfold get_column. rewrite Hc.
  unfold has_column in Hc. apply bool_decide_eq_true in Hc.
  assert (c ∈ columns data) as Hin.
  { destruct (filter (λ c', c' = c) (columns data)) as [|c' l] eqn:Hfilter; [done|].
    assert (c' ∈ filter (λ c', c' = c) (columns data)) as Hc'.
    { rewrite Hfilter. apply list_elem_of_here. }
    by apply list_elem_of_filter in Hc' as [-> ?]. }
  destruct (column_pos_elem_of _ _ Hin) as [j ->]. by eexists.
Qed.

Lemma sns_relplot_ValueError (call : relplot_call F) msg :
  sns_relplot call = Raise (ValueError msg) →
  msg = "Could not interpret value for parameter".
Proof.
  unfold sns_relplot. destruct (negb _); [by intros [= <-]|].
  unfold get_column. destruct (column_pos _ _); [|done].
  destruct (has_column _ _); cbn; [|done]. by case_bool_decide.
Qed.

Lemma valid_seed_message seed :
  valid_seed seed = true →
  str_seed seed +:+ " not a recognized choice" ≠ "Could not interpret value for parameter".
Proof.
  unfold valid_seed. destruct seed as [s|l| | |text]; cbn; try done.
  intros [->%bool_decide_eq_true| ->%bool_decide_eq_true]%orb_prop; discriminate.
Qed.

(** With a recognized seed [plot] does not raise the error of line 85. *)
Lemma facet_result_valid_seed data hue style seed B :
  valid_seed seed = true →
  facet_result data hue style seed B
    ≠ Raise (ValueError (str_seed seed +:+ " not a recognized choice")).
Proof.
  intros Hvalid. pose proof (valid_seed_message seed Hvalid) as Hmsg.
  unfold facet_result, facet_figure, mbind, io_bind, print, lift, raise, mret, io_ret.
  cbn [fs stdout shown]. unfold get_column.
  destruct (column_pos "env" (columns data)); [|done].
  destruct (has_column data "env"); [|done]. cbn.
  unfold valid_seed in Hvalid.
  destruct (is_list seed || seed_eq seed "average").
  - destruct (sns_relplot _) as [g|[]] eqn:Hg; try done.
    intros [= Heq]. apply sns_relplot_ValueError in Hg. congruence.
  - cbn in Hvalid. rewrite Hvalid.
    destruct (sns_relplot _) as [g|[]] eqn:Hg; try done.
    intros [= Heq]. apply sns_relplot_ValueError in Hg. congruence.
Qed.

Lemma write_file_not_ValueError path (c : content) (w : world) msg :
  (write_file path c w).2 ≠ Raise (ValueError msg).
Proof.
  unfold write_file. case_bool_decide; [done|].
  destruct (fs w !! path) as [[|]|]; try done;
    (destruct (is_dir _ _); [done|]); by destruct (through_file _ _).
Qed.

Lemma savefig_not_seed_error g path (w : world) seed :
  valid_seed seed = true →
  (savefig g path w).2
    ≠ Raise (ValueError (str_seed seed +:+ " not a recognized choice")).
Proof.
  intros Hvalid. unfold savefig. case_bool_decide; [apply write_file_not_ValueError|].
  unfold raise. cbn [snd]. intros [= Heq]. revert Heq. unfold valid_seed in Hvalid.
  destruct seed as [s|l| | |text]; cbn in Hvalid; try done.
  destruct (orb_prop _ _ Hvalid) as [->%bool_decide_eq_true| ->%bool_decide_eq_true];
    discriminate.
Qed.

Lemma plot_invalid_seed data hue style seed B savepath show (w : world) :
  valid_seed seed = false →
  ∃ e,
    plot data hue style seed B savepath show w =
      (World (fs w) (stdout w ++ [plot_banner hue style seed]) (shown w), Raise e) ∧
    (has_column data "env" = true →
       e = ValueError (str_seed seed +:+ " not a recognized choice")).
Proof.
  intros Hseed. rewrite plot_run. cbn zeta.
  rewrite (facet_result_invalid_seed _ _ _ _ _ Hseed).
  destruct (get_column data "env") as [envs|e] eqn:Henvs.
  - by eexists.
  - exists e. split; [done|]. intros Henv.
    destruct (get_column_has_column _ _ Henv). congruence.
Qed.

(** C3. With a seed that is neither a list, nor ['average'], nor ['all'],
    [plot] prints its first line and raises: the files and the screen are
    as before, so no figure is saved or shown; on a table with an [env]
    column the error is the [ValueError] of line 85.  With a seed that is
    a list, ['average'] or ['all'], that error is not raised. *)
Theorem unrecognized_seed_raises_before_rendering
    data hue style seed B savepath show (w : world) :
  (valid_seed seed = false →
     ∃ e,
       plot data hue style seed B savepath show w =
         (World (fs w) (stdout w ++ [plot_banner hue style seed]) (shown w), Raise e) ∧
       (has_column data "env" = true →
          e = ValueError (str_seed seed +:+ " not a recognized choice"))) ∧
  (valid_seed seed = true →
     (plot data hue style seed B savepath show w).2
       ≠ Raise (ValueError (str_seed seed +:+ " not a recognized choice"))).
Proof.
  split; intros Hseed; [by apply plot_invalid_seed|]. rewrite plot_run; cbn zeta.
  - pose proof (facet_result_valid_seed data hue style seed B Hseed) as Hraise.
    destruct (facet_result data hue style seed B) as [g|e];
      [|intros [= ->]; by apply Hraise].
    unfold mbind, io_bind. destruct savepath as [path|].
    + pose proof (savefig_not_seed_error g path
                    (World (fs w) (stdout w ++ [plot_banner hue style seed]) (shown w))
                    seed Hseed) as Hwrite.
      destruct (savefig _ _ _) as [w2 [[]|e]]; [by destruct show|done].
    + by destruct show.
Qed.

(** What a completed call of [plot] did. *)
Lemma plot_Ok_inv data hue style seed B savepath show (w w' : world) :
  plot data hue style seed B savepath show w = (w', Ok ()) →
  ∃ g,
    facet_result data hue style seed B = Ok g ∧
    fs w' = match savepath with
            | Some path => <[savefig_filename path := File (Image g)]> (fs w)
            | None => fs w
            end ∧
    shown w' = (if show then shown w ++ [g] else shown w) ∧
    ∀ path, savepath = Some path →
      savefig_format path ∈ savefig_formats ∧
      fs w !! savefig_filename path ≠ Some Dir ∧
      is_dir (fs w) (os_path_split (savefig_filename path)).1 = true.
Proof.
  rewrite plot_run. cbn zeta.
  destruct (facet_result data hue style seed B) as [g|e]; [|done].
  intros Hrun. exists g. split; [done|].
  unfold mbind, io_bind in Hrun. destruct savepath as [path|].
  - unfold savefig in Hrun.
    destruct (bool_decide (savefig_format path ∈ savefig_formats)) eqn:Hformat;
      [|by cbn in Hrun].
    apply bool_decide_eq_true in Hformat.
    unfold write_file in Hrun. cbn [fs stdout shown] in Hrun.
    destruct (bool_decide (savefig_filename path = "")); [by cbn in Hrun|].
    destruct (fs w !! savefig_filename path) as [[|c]|] eqn:Hlookup; [by cbn in Hrun|..];
      (destruct (is_dir (fs w) (os_path_split (savefig_filename path)).1) eqn:Hdir;
         [|by cbn in Hrun]);
      (destruct show; cbn in Hrun; injection Hrun as <-; cbn;
       (split_and!; [done..|]); intros ? [= <-]; by rewrite Hlookup).
  - destruct show; cbn in Hrun; injection Hrun as <-; cbn; by split_and!.
Qed.

(** C6, amended to the thresholds of lines 52 and 53.  A call of [plot]
    that completes has built one figure, the one it shows and saves, with
    one panel per distinct value of the [env] column that is not missing:
    one panel per grid row when the column has one distinct value, two per
    grid row when it has two or more, panels of height 5 up to two
    distinct values and of height 3 beyond. *)
Theorem facet_grid_layout data hue style seed B savepath show (w w' : world) :
  plot data hue style seed B savepath show w = (w', Ok ()) →
  ∃ g envs,
    get_column data "env" = Ok envs ∧
    (show = true → shown w' = shown w ++ [g]) ∧
    (∀ path, savepath = Some path →
       fs w' !! savefig_filename path = Some (File (Image g))) ∧
    NoDup (ax_facet <$> fig_axes g) ∧
    (∀ v, v ∈ ax_facet <$> fig_axes g ↔ v ∈ envs ∧ is_null v = false) ∧
    1 ≤ length (fig_axes g) ≤ length (unique envs) ∧
    (Forall (λ v, is_null v = false) envs → length (fig_axes g) = length (unique envs)) ∧
    (length (unique envs) = 1 → fig_ncol g = 1) ∧
    (2 ≤ length (unique envs) → fig_ncol g = 2) ∧
    (length (unique envs) ≤ 2 → fig_height g = 5%Z) ∧
    (2 < length (unique envs) → fig_height g = 3%Z).
Proof.
  intros Hplot. destruct (plot_Ok_inv _ _ _ _ _ _ _ _ _ Hplot) as (g & Hg & Hfs & Hshown & _).
  destruct (facet_result_Ok _ _ _ _ _ _ Hg)
    as (envs & Henvs & _ & Hne & Haxes & Hncol & Hheight & _).
  assert (length (fig_axes g) = length (categorical_order envs)) as Hlen.
  { by rewrite <- Haxes, length_fmap. }
  exists g, envs. split_and!; try done.
  - by intros ->.
  - intros path ->. rewrite Hfs. apply lookup_insert_eq.
  - rewrite Haxes. apply categorical_order_NoDup.
  - intros v. rewrite Haxes. apply elem_of_categorical_order.
  - rewrite Hlen. destruct (categorical_order envs); [done|cbn; lia].
  - rewrite Hlen. apply categorical_order_length.
  - intros Hvalues. by rewrite Hlen, categorical_order_no_null.
  - intros Hn. by rewrite Hncol, Hn.
  - intros Hn. rewrite Hncol. by destruct (Nat.ltb_spec 1 (length (unique envs))); [|lia].
  - intros Hn. rewrite Hheight. by destruct (Nat.ltb_spec 2 (length (unique envs))); [lia|].
  - intros Hn. rewrite Hheight. by destruct (Nat.ltb_spec 2 (length (unique envs))); [|lia].
Qed.

End Tables.

(** ** The script *)

Section Script.

Context {F : Type} `{!Numeric F} `{!Libraries F}.

Abbreviation scalar := (scalar F).
Abbreviation table := (table F).
Abbreviation DataFrame := (DataFrame F).
Abbreviation figure := (figure F).
Abbreviation content := (content F).
Abbreviation node := (node F).
Abbreviation world := (world F).
Abbreviation io := (io F).

(** *** Reading and collating only log *)

Lemma log_only_read_csv path : log_only (pd_read_csv path).
Proof.
  intros [m out sh]. unfold pd_read_csv. cbn.
  destruct (m !! path) as [[|[]]|]; cbn; by rewrite app_nil_r.
Qed.

Lemma log_only_parse_filepath fp B : log_only (parse_filepath fp B).
Proof.
  unfold parse_filepath. apply log_only_try_except.
  - repeat (apply log_only_bind; [|intros ?]);
      auto using log_only_read_csv, log_only_open_file, log_only_lift, log_only_ret.
  - intros e k Hk. destruct e; try done. injection Hk as <-.
    apply log_only_bind; auto using log_only_print, log_only_ret.
Qed.

Lemma log_only_collate_loop runs B dfs :
  log_only (collate_loop runs B dfs).
Proof.
  revert dfs. induction runs as [|run runs IH]; intros dfs; cbn [collate_loop].
  - apply log_only_ret.
  - apply log_only_bind; [apply log_only_print|intros _].
    apply log_only_bind; [apply log_only_parse_filepath|intros [df|]]; apply IH.
Qed.

Lemma log_only_collate_results dir B : log_only (collate_results dir B).
Proof.
  unfold collate_results.
  apply log_only_bind; [apply log_only_glob|intros runs].
  apply log_only_bind; [apply log_only_collate_loop|intros dfs]. apply log_only_lift.
Qed.

(** *** [parse_filepath] *)

Lemma parse_filepath_ok (w : world) fp B t loss binned members :
  fs w !! (fp +:+ "/loss.csv") = Some (File (Csv t)) →
  frame_of_table t = Ok loss →
  bin_frame einsum_other loss B = Ok binned →
  fs w !! (fp +:+ "/params.json") = Some (File (Json members)) →
  parse_filepath fp B w =
    (w, Ok (Some (attach_params (json_load members) binned))).
Proof.
  intros Hloss Hframe Hbin Hparams.
  unfold parse_filepath, try_except, mbind, io_bind, pd_read_csv, open_file, lift.
  by rewrite Hloss, Hframe, Hbin, Hparams.
Qed.

Lemma parse_filepath_no_loss (w : world) fp B :
  file_missing (fs w) (fp +:+ "/loss.csv") = true →
  parse_filepath fp B w =
    (World (fs w)
       (stdout w ++ ["Error in parsing filepath " +:+ fp +:+ ": " +:+
                     str_exn (FileNotFoundError (fp +:+ "/loss.csv"))])
       (shown w),
     Ok None).
Proof.
  unfold file_missing. intros [Hnone Hthrough]%andb_prop.
  apply bool_decide_eq_true in Hnone. apply negb_true_iff in Hthrough.
  unfold parse_filepath, try_except, mbind, io_bind, pd_read_csv.
  by rewrite Hnone, Hthrough.
Qed.

Lemma parse_filepath_no_params (w : world) fp B t loss binned :
  fs w !! (fp +:+ "/loss.csv") = Some (File (Csv t)) →
  frame_of_table t = Ok loss →
  bin_frame einsum_other loss B = Ok binned →
  file_missing (fs w) (fp +:+ "/params.json") = true →
  parse_filepath fp B w =
    (World (fs w)
       (stdout w ++ ["Error in parsing filepath " +:+ fp +:+ ": " +:+
                     str_exn (FileNotFoundError (fp +:+ "/params.json"))])
       (shown w),
     Ok None).
Proof.
  unfold file_missing. intros Hloss Hframe Hbin [Hnone Hthrough]%andb_prop.
  apply bool_decide_eq_true in Hnone. apply negb_true_iff in Hthrough.
  unfold parse_filepath, try_except, mbind, io_bind, pd_read_csv, open_file, lift.
  by rewrite Hloss, Hframe, Hbin, Hnone, Hthrough.
Qed.

(** What a successful parse went through. *)
Lemma parse_filepath_Some_inv (w : world) fp B out :
  (parse_filepath fp B w).2 = Ok (Some out) →
  ∃ t loss binned members,
    fs w !! (fp +:+ "/loss.csv") = Some (File (Csv t)) ∧
    frame_of_table t = Ok loss ∧
    bin_frame einsum_other loss B = Ok binned ∧
    fs w !! (fp +:+ "/params.json") = Some (File (Json members)) ∧
    out = attach_params (json_load members) binned.
Proof.
  unfold parse_filepath, try_except, mbind, io_bind, pd_read_csv, open_file, lift.
  destruct (fs w !! (fp +:+ "/loss.csv")) as [[|[t| |]]|] eqn:Hloss; cbn;
    try (intros; discriminate).
  - destruct (frame_of_table t) as [loss|e] eqn:Hframe; cbn.
    + destruct (bin_frame einsum_other loss B) as [binned|e] eqn:Hbin; cbn.
      * destruct (fs w !! (fp +:+ "/params.json")) as [[|[t'|members|]]|] eqn:Hparams;
          cbn; try (intros; discriminate).
        -- intros [= <-]. by exists t, loss, binned, members.
        -- by destruct (through_file _ _).
      * by destruct e.
    + by destruct e.
  - destruct (through_file _ _); [by destruct (csv_through_file _)|done].
Qed.

(** The labels of a parsed table are distinct. *)
Lemma parse_filepath_NoDup (w : world) fp B out :
  (parse_filepath fp B w).2 = Ok (Some out) →
  NoDup (columns out).
Proof.
  intros (t & loss & binned & members & _ & Hframe & Hbin & _ & ->)%parse_filepath_Some_inv.
  apply attach_params_NoDup.
  destruct (bin_frame_rectangular _ _ _ _ Hbin) as [_ ->].
  by destruct (frame_of_table_wf _ _ Hframe) as (_ & ? & _).
Qed.

(** C1. For a run with a loss log of numbers ([N] rows, at least one), a
    metadata file and a positive bin size [B], lines 19 to 26 of
    [parse_filepath] build the binned table of the specification:
    [floor(N/B)] rows, row [i] the column-wise arithmetic mean of the rows
    [i*B .. i*B+B-1] of the log.  The integers of the log are [int64]
    numbers: a log of integers only is summed in [int64], and the sums of
    its windows are taken to stay in that range.  [parse_filepath] returns
    that table with the metadata attached: it has [floor(N/B)] rows, and
    holds the mean at every log column that is not a metadata key.  The
    last [N mod B] rows contribute nothing: a log of the same dtype that
    differs from this one in them only is binned to the same table.  And
    250 rows binned by 100 give 2 rows. *)
Theorem parse_filepath_bins_log (w : world) fp B t loss members :
  (0 < B)%Z →
  fs w !! (fp +:+ "/loss.csv") = Some (File (Csv t)) →
  frame_of_table t = Ok loss →
  numeric_frame loss = true →
  int64_log loss B →
  fs w !! (fp +:+ "/params.json") = Some (File (Json members)) →
  let N := length (rows loss) in
  let b := Z.to_nat B in
  let out := attach_params (json_load members) (binned_means loss B) in
  bin_frame einsum_other loss B = Ok (binned_means loss B) ∧
  parse_filepath fp B w = (w, Ok (Some out)) ∧
  length (rows out) = N / b ∧
  (∀ i k c, i < N / b → columns loss !! k = Some c → c ∉ (json_load members).*1 →
     columns out !! k = Some c ∧
     rows out !! i ≫= (.!! k) = Some (SFloat (window_mean loss B i k))) ∧
  (∀ t' loss',
     frame_of_table t' = Ok loss' → numeric_frame loss' = true →
     int64_cells loss' = true → int_frame loss' = int_frame loss →
     columns loss' = columns loss → length (rows loss') = N →
     take (N - N mod b) (rows loss') = take (N - N mod b) (rows loss) →
     bin_frame einsum_other loss' B = Ok (binned_means loss B)) ∧
  (N = 250 → B = 100%Z → length (rows out) = 2).
Proof.
  intros HB Hloss Hframe Hnum Hint64 Hparams N b out.
  destruct (frame_of_table_wf _ _ Hframe) as (Hcols & _ & Hrect).
  pose proof (bin_frame_means einsum_other loss B HB Hcols Hrect Hnum Hint64) as Hbin.
  destruct (bin_frame_rectangular _ _ _ _ Hbin) as [Hrect' Hcols'].
  assert (length (rows out) = N / b) as Hlen.
  { subst out. rewrite attach_params_length_rows. cbn. by rewrite length_fmap, length_seq. }
  split_and!; [done|by eapply parse_filepath_ok|done| | |].
  - intros i k c Hi Hk Hc.
    destruct (attach_params_other_pos (json_load members) (binned_means loss B) k c)
      as [Hcol Hcells]; [done|done|done|].
    split; [done|]. subst out. rewrite Hcells. cbn.
    rewrite list_lookup_fmap, lookup_seq_lt by done. cbn.
    rewrite list_lookup_fmap, lookup_seq_lt; [done|]. by eapply lookup_lt_Some.
  - intros t' loss' Hframe' Hnum' Hcells' Hint' Hsame Hlen' Htake.
    destruct (frame_of_table_wf _ _ Hframe') as (Hcols'' & _ & Hrect'').
    rewrite <- (binned_means_agree loss loss' B HB Hsame Hlen' Hint' Htake).
    apply bin_frame_means; [done..|]. split; [done|].
    intros Hints i k Hi Hk. rewrite Hint' in Hints. destruct Hint64 as [_ Hsums].
    rewrite Hlen' in Hi. rewrite Hsame in Hk.
    rewrite (window_sum_agree loss loss' B i k) by done. by apply Hsums.
  - intros HN ->. rewrite Hlen, HN. done.
Qed.

(** C5. A run that [parse_filepath] parses has a metadata file; every key
    of the file is a key of the loaded dictionary (which is the file
    itself when no key repeats), every key of the dictionary is a column of
    the table returned, and every row of that table holds the value of the
    key under it. *)
Theorem metadata_keys_are_constant_columns (w : world) fp B out :
  (parse_filepath fp B w).2 = Ok (Some out) →
  ∃ members,
    fs w !! (fp +:+ "/params.json") = Some (File (Json members)) ∧
    (∀ k, k ∈ members.*1 → k ∈ (json_load members).*1) ∧
    (NoDup members.*1 → json_load members = members) ∧
    ∀ k v, (k, v) ∈ json_load members →
      k ∈ columns out ∧ Forall (λ r, cell_at (columns out) k r = v) (rows out).
Proof.
  intros Hparse.
  destruct (parse_filepath_Some_inv _ _ _ _ Hparse)
    as (t & loss & binned & members & _ & _ & Hbin & Hparams & ->).
  exists members. split_and!; [done|apply json_load_keys|apply json_load_NoDup_id|].
  intros k v Hkv. apply attach_params_sets; [|apply json_load_NoDup|done].
  by destruct (bin_frame_rectangular _ _ _ _ Hbin).
Qed.

(** *** [collate_results] *)

Lemma missing_file_run_parse (w : world) fp B :
  missing_file_run (fs w) fp B →
  ∃ path,
    parse_filepath fp B w =
      (World (fs w)
         (stdout w ++ ["Error in parsing filepath " +:+ fp +:+ ": " +:+
                       str_exn (FileNotFoundError path)])
         (shown w),
       Ok None).
Proof.
  intros [Hloss|(t & loss & Hloss & Hframe & Hnum & HB & Hparams)].
  - eexists. by apply parse_filepath_no_loss.
  - destruct (frame_of_table_wf _ _ Hframe) as (Hcols & _ & Hrect).
    destruct (bin_frame_Ok einsum_other loss B HB Hcols Hrect Hnum) as [binned Hbin].
    eexists. by eapply parse_filepath_no_params.
Qed.

Lemma collate_loop_skip (w : world) fp B rest dfs :
  missing_file_run (fs w) fp B →
  ∃ w', fs w' = fs w ∧ shown w' = shown w ∧
    collate_loop (fp :: rest) B dfs w =
    collate_loop rest B dfs w'.
Proof.
  intros Hmiss.
  destruct (missing_file_run_parse (World (fs w) (stdout w ++ ["Found " +:+ fp]) (shown w))
              fp B Hmiss) as [path Hparse].
  eexists (World (fs w) _ (shown w)). split_and!; [done..|].
  cbn [collate_loop]. unfold mbind at 1, io_bind at 1, print at 1.
  unfold mbind at 1, io_bind at 1. by rewrite Hparse.
Qed.

Lemma collate_loop_skip_result (w : world) fp B before after dfs :
  missing_file_run (fs w) fp B →
  (collate_loop (before ++ fp :: after) B dfs w).2 =
  (collate_loop (before ++ after) B dfs w).2.
Proof.
  revert w dfs. induction before as [|run before IH]; intros w dfs Hmiss.
  - cbn [app]. destruct (collate_loop_skip w fp B after dfs Hmiss) as (w' & Hfs & _ & ->).
    by apply log_only_result; [apply log_only_collate_loop|].
  - cbn [app collate_loop]. unfold mbind at 1 3, io_bind at 1 3, print at 1 2.
    set (w1 := World (fs w) (stdout w ++ ["Found " +:+ run]) (shown w)).
    unfold mbind at 1 2, io_bind at 1 2.
    pose proof (log_only_fs (parse_filepath run B) w1
                  (log_only_parse_filepath run B)) as Hfs.
    destruct (parse_filepath run B w1) as [w2 [[df|]|e]]; [| |done];
      cbn in Hfs; apply IH; by rewrite Hfs.
Qed.

(** C2. A run in which [loss.csv] is missing, or in which [loss.csv] is a
    numeric log, the bin size is positive and [params.json] is missing:
    [parse_filepath] prints the error and returns [None]; the loop of
    [collate_results] goes on with the remaining runs and the tables
    collected so far; and the outcome of the loop and of [collate_results]
    is the outcome without that run, so the run adds no row and does not
    abort the batch. *)
Theorem missing_file_run_is_skipped (w : world) fp B :
  missing_file_run (fs w) fp B →
  (∃ path,
     parse_filepath fp B w =
       (World (fs w)
          (stdout w ++ ["Error in parsing filepath " +:+ fp +:+ ": " +:+
                        str_exn (FileNotFoundError path)])
          (shown w),
        Ok None)) ∧
  (∀ rest dfs, ∃ w', fs w' = fs w ∧ shown w' = shown w ∧
     collate_loop (fp :: rest) B dfs w =
     collate_loop rest B dfs w') ∧
  (∀ before after dfs,
     (collate_loop (before ++ fp :: after) B dfs w).2 =
     (collate_loop (before ++ after) B dfs w).2) ∧
  (∀ dir before after,
     glob_paths (fs w) (dir +:+ "/*") = before ++ fp :: after →
     (collate_results dir B w).2 =
     ((dfs ← collate_loop (before ++ after) B []; lift (pd_concat dfs)) w).2).
Proof.
  intros Hmiss. split_and!.
  - by apply missing_file_run_parse.
  - intros rest dfs. by apply collate_loop_skip.
  - intros before after dfs. by apply collate_loop_skip_result.
  - intros dir before after Hglob.
    unfold collate_results, glob_glob. unfold mbind at 1, io_bind at 1. rewrite Hglob.
    pose proof (collate_loop_skip_result w fp B before after [] Hmiss) as Hres.
    unfold mbind, io_bind, lift.
    destruct (collate_loop (before ++ fp :: after) B [] w) as [w1 r1].
    destruct (collate_loop (before ++ after) B [] w) as [w2 r2].
    cbn in Hres. subst r2. by destruct r1.
Qed.

Lemma collate_loop_outcomes (w : world) B runs outcomes dfs :
  Forall2 (λ run o, (parse_filepath run B w).2 = Ok o) runs outcomes →
  (collate_loop runs B dfs w).2 = Ok (dfs ++ omap id outcomes).
Proof.
  intros Hall.
  enough (∀ w', fs w' = fs w →
            (collate_loop runs B dfs w').2 = Ok (dfs ++ omap id outcomes))
    as Hgen by (by apply Hgen).
  revert dfs. induction Hall as [|run o runs outcomes Hrun _ IH]; intros dfs w' Hfs.
  - cbn. by rewrite app_nil_r.
  - cbn [collate_loop]. unfold mbind at 1, io_bind at 1, print at 1.
    set (w1 := World (fs w') (stdout w' ++ ["Found " +:+ run]) (shown w')).
    unfold mbind at 1, io_bind at 1.
    pose proof (log_only_fs (parse_filepath run B) w1
                  (log_only_parse_filepath run B)) as Hfs1.
    pose proof (log_only_result (parse_filepath run B) w1 w
                  (log_only_parse_filepath run B) Hfs) as Hres.
    rewrite Hrun in Hres.
    destruct (parse_filepath run B w1) as [w2 r]. cbn in Hfs1, Hres.
    subst r. destruct o as [df|]; cbn [omap mbind option_bind id].
    + rewrite IH by congruence. by rewrite <- app_assoc.
    + apply IH. congruence.
Qed.

(** C9. When every path the directory lists is a run skipped for a
    missing file (in particular when the directory lists nothing),
    [collate_results] raises the error of [pd.concat] on no frame; a
    rebuilding invocation raises it too and leaves the files as they
    were: no [combined.csv] is produced. *)
Theorem no_parsed_run_aborts (w : world) dir B :
  Forall (λ run, missing_file_run (fs w) run B) (glob_paths (fs w) (dir +:+ "/*")) →
  (collate_results dir B w).2
    = Raise (ValueError "No objects to concatenate") ∧
  ∀ a, create_csv a = true → results_dir a = dir → bin_size a = B →
    (main a w).2
      = Raise (ValueError "No objects to concatenate") ∧
    fs (main a w).1 = fs w ∧
    shown (main a w).1 = shown w.
Proof.
  intros Hall.
  assert (∀ w', fs w' = fs w →
            (collate_results dir B w').2
              = Raise (ValueError "No objects to concatenate")) as Hcollate.
  { intros w' Hfs. unfold collate_results, glob_glob.
    unfold mbind at 1, io_bind at 1. rewrite Hfs.
    pose proof (collate_loop_outcomes w' B (glob_paths (fs w) (dir +:+ "/*"))
                  (replicate (length (glob_paths (fs w) (dir +:+ "/*"))) None) []) as Hloop.
    unfold mbind, io_bind, lift.
    destruct (collate_loop _ B [] w') as [w1 r]. cbn in Hloop.
    rewrite Hloop.
    - by rewrite omap_replicate_None.
    - clear Hloop. induction Hall as [|run runs Hrun _ IH]; cbn; constructor; [|done].
      rewrite <- Hfs in Hrun. destruct (missing_file_run_parse w' run B Hrun) as [path ->].
      done. }
  split; [by apply Hcollate|].
  intros a Hcreate <- <-.
  enough (∃ w', main a w
                  = (w', Raise (ValueError "No objects to concatenate")) ∧
                fs w' = fs w ∧ shown w' = shown w) as (w' & -> & ? & ?) by done.
  unfold main, rebuild_csv. rewrite Hcreate.
  unfold mbind at 1, io_bind at 1. unfold mbind at 1, io_bind at 1, print at 1.
  unfold mbind at 1, io_bind at 1, print at 1.
  set (w1 := World _ _ _). unfold mbind at 1, io_bind at 1.
  pose proof (Hcollate w1 eq_refl) as Hres.
  pose proof (log_only_fs _ w1 (log_only_collate_results (results_dir a) (bin_size a))) as Hfs.
  pose proof (log_only_shown _ w1 (log_only_collate_results (results_dir a) (bin_size a)))
    as Hshown.
  destruct (collate_results _ _ w1) as [w2 r]. cbn in *. subst r. by exists w2.
Qed.

(** C4, amended to at least one parsed run.  When every path the
    directory lists is parsed or skipped and at least one of them is
    parsed, [collate_results] returns one table: its row count is the sum
    of the row counts of the parsed tables and its columns are those of
    the parsed tables together. *)
Theorem collate_stacks_parsed_runs (w : world) dir B outcomes :
  Forall2 (λ run o, (parse_filepath run B w).2 = Ok o)
    (glob_paths (fs w) (dir +:+ "/*")) outcomes →
  omap id outcomes ≠ [] →
  ∃ out,
    (collate_results dir B w).2 = Ok out ∧
    length (rows out) = sum_list ((length ∘ rows) <$> omap id outcomes) ∧
    ∀ c, c ∈ columns out ↔ ∃ df, df ∈ omap id outcomes ∧ c ∈ columns df.
Proof.
  intros Hall Hne.
  assert (Forall (λ df, NoDup (columns df)) (omap id outcomes)) as Hnodup.
  { apply Forall_forall. intros df (o & Ho & Hdf)%list_elem_of_omap.
    destruct o as [df'|]; [|done]. injection Hdf as ->.
    apply list_elem_of_lookup in Ho as [i Hi].
    destruct (Forall2_lookup_r _ _ _ _ _ Hall Hi) as (run & _ & Hrun).
    by apply parse_filepath_NoDup in Hrun. }
  destruct (pd_concat_stacks _ Hne Hnodup) as (out & Hconcat & Hrows & Hcols).
  exists out. split_and!; [|done..].
  unfold collate_results, glob_glob. unfold mbind at 1, io_bind at 1.
  pose proof (collate_loop_outcomes w B _ _ [] Hall) as Hloop.
  unfold mbind, io_bind, lift.
  destruct (collate_loop _ B [] w) as [w1 r]. cbn in Hloop. by subst r.
Qed.

(** *** [__main__] *)

Lemma keeps_screen_rebuild_csv a : keeps_screen (rebuild_csv a).
Proof.
  unfold rebuild_csv.
  apply keeps_screen_bind; [apply keeps_screen_log_only, log_only_print|intros _].
  apply keeps_screen_bind; [apply keeps_screen_log_only, log_only_print|intros _].
  apply keeps_screen_bind; [apply keeps_screen_log_only, log_only_collate_results|].
  intros df. apply keeps_screen_write_file.
Qed.

Lemma keeps_screen_load_table a : keeps_screen (load_table a).
Proof.
  unfold load_table. apply keeps_screen_bind.
  - destruct (save_path a); [|apply keeps_screen_ret].
    case_bool_decide; [apply keeps_screen_makedirs|apply keeps_screen_ret].
  - intros _. apply keeps_screen_bind.
    + apply keeps_screen_log_only, log_only_read_csv.
    + intros df. destruct (query a); [|apply keeps_screen_ret].
      apply keeps_screen_bind; [apply keeps_screen_log_only, log_only_print|intros _].
      apply keeps_screen_log_only, log_only_lift.
Qed.

(** C10. The seed [__main__] passes to [plot] is the string of the
    command line, never a list.  When that string is neither ['average']
    nor ['all'] (whatever it spells, a list included), the call of [plot]
    on a table with an [env] column raises the [ValueError] of line 85 and
    shows and saves nothing, and an invocation that plots always ends
    with an error, nothing shown. *)
Theorem cli_seed_is_a_string (a : args) :
  (∀ df, plot_call a df =
         plot df (hue a) (style a) (SeedStr (seed a)) (bin_size a) (save_path a)
              (negb (no_show a))) ∧
  is_list (SeedStr (seed a)) = false ∧
  (seed a ≠ "average" → seed a ≠ "all" →
     (∀ df (w : world), has_column df "env" = true →
        plot_call a df w =
          (World (fs w)
             (stdout w ++ [plot_banner (hue a) (style a) (SeedStr (seed a))])
             (shown w),
           Raise (ValueError (seed a +:+ " not a recognized choice")))) ∧
     (∀ w : world, no_plot a = false →
        ∃ e, (main a w).2 = Raise e ∧
             shown (main a w).1 = shown w)).
Proof.
  split_and!; [done..|]. intros Havg Hall.
  assert (valid_seed (SeedStr (seed a)) = false) as Hseed.
  { unfold valid_seed. cbn. by rewrite !bool_decide_eq_false_2. }
  assert (∀ df (w : world), ∃ e,
            plot_call a df w =
              (World (fs w)
                 (stdout w ++ [plot_banner (hue a) (style a) (SeedStr (seed a))])
                 (shown w), Raise e) ∧
            (has_column df "env" = true →
               e = ValueError (seed a +:+ " not a recognized choice"))) as Hcall.
  { intros df w. unfold plot_call. by apply plot_invalid_seed. }
  split.
  - intros df w Henv. destruct (Hcall df w) as (e & -> & He). by rewrite He.
  - intros w Hplot.
    enough (∃ w' e, main a w = (w', Raise e) ∧ shown w' = shown w)
      as (w' & e & -> & ?) by by exists e.
    unfold main. rewrite Hplot. cbn [negb].
    set (stage1 := if create_csv a then rebuild_csv a else mret ()).
    assert (keeps_screen stage1) as Hstage1.
    { subst stage1.
      destruct (create_csv a); [apply keeps_screen_rebuild_csv|apply keeps_screen_ret]. }
    specialize (Hstage1 w). unfold mbind at 1, io_bind at 1.
    destruct (stage1 w) as [w0 [[]|e]]; cbn in Hstage1; [|by eauto].
    unfold mbind, io_bind.
    pose proof (keeps_screen_load_table a w0) as Hstage2.
    destruct (load_table a w0) as [w1 [df|e]]; cbn in Hstage2;
      [|exists w1, e; split; [done|congruence]].
    destruct (Hcall df w1) as (e & -> & _). eexists _, e. split; [done|]. cbn. congruence.
Qed.

(** The plotting stage reads [combined.csv] after making the directory of
    the image, which overwrites no file. *)
Lemma load_table_Ok_inv a (w w1 : world) data :
  load_table a w = (w1, Ok data) →
  ∃ dirs,
    dirs = match save_path a with
           | Some path =>
               if bool_decide (path ≠ "")
               then ancestors (os_path_split path).1 ++ [(os_path_split path).1]
               else []
           | None => []
           end ∧
    fs w1 = foldr (λ d m, <[d := Dir]> m) (fs w) dirs ∧
    Forall (λ d, is_file (fs w !! d) = false) dirs ∧
    ∃ read,
      (pd_read_csv (os_path_join (results_dir a) "combined.csv")
         (World (fs w1) [] [])).2 = Ok read ∧
      match query a with
      | Some q => df_query q read = Ok data
      | None => data = read
      end.
Proof.
  unfold load_table. unfold mbind at 1, io_bind at 1. intros Hload. eexists. split; [done|].
  set (mk := match save_path a with Some _ => _ | None => _ end) in Hload.
  assert (∀ w0 : world, mk w = (w0, Ok ()) →
            fs w0 = foldr (λ d m, <[d := Dir]> m) (fs w)
                      match save_path a with
                      | Some path =>
                          if bool_decide (path ≠ "")
                          then ancestors (os_path_split path).1 ++ [(os_path_split path).1]
                          else []
                      | None => []
                      end ∧
            Forall (λ d, is_file (fs w !! d) = false)
                      match save_path a with
                      | Some path =>
                          if bool_decide (path ≠ "")
                          then ancestors (os_path_split path).1 ++ [(os_path_split path).1]
                          else []
                      | None => []
                      end) as Hmk.
  { subst mk. intros w0. destruct (save_path a) as [path|]; [|by intros [= <-]].
    case_bool_decide; [apply os_makedirs_Ok_inv|by intros [= <-]]. }
  destruct (mk w) as [w0 [[]|e]]; [|done].
  destruct (Hmk w0 eq_refl) as [Hfs Hfiles]. clear Hmk.
  unfold mbind at 1, io_bind at 1 in Hload.
  pose proof (log_only_read_csv (os_path_join (results_dir a) "combined.csv") w0) as Hread.
  rewrite Hread in Hload. cbn [fst snd] in Hload.
  destruct (pd_read_csv _ (World (fs w0) [] [])) as [w0' [read|e]] eqn:Hr; cbn in Hload;
    [|done].
  destruct (query a) as [q|].
  - unfold mbind, io_bind, print, lift in Hload. cbn in Hload.
    injection Hload as <- Hq. cbn [fs]. rewrite Hr. split_and!; [done..|]. by exists read.
  - injection Hload as <- <-. cbn [fs]. rewrite Hr. split_and!; [done..|]. by exists read.
Qed.

Lemma rebuild_csv_Ok_inv a (w w0 : world) :
  rebuild_csv a w = (w0, Ok ()) →
  ∃ df,
    (collate_results (results_dir a) (bin_size a) w).2 = Ok df ∧
    fs w0 = <[os_path_join (results_dir a) "combined.csv" := File (Csv (table_of_frame df))]>
              (fs w).
Proof.
  unfold rebuild_csv. unfold mbind at 1, io_bind at 1, print at 1.
  unfold mbind at 1, io_bind at 1, print at 1. set (w1 := World _ _ _).
  unfold mbind at 1, io_bind at 1.
  pose proof (log_only_fs _ w1 (log_only_collate_results (results_dir a) (bin_size a))) as Hfs.
  pose proof (log_only_result _ w1 w (log_only_collate_results (results_dir a) (bin_size a))
                eq_refl) as Hres.
  destruct (collate_results _ _ w1) as [w2 [df|e]]; [|done]. cbn in Hfs, Hres.
  intros Hwrite. exists df. split; [done|].
  unfold to_csv, write_file in Hwrite. case_bool_decide; [done|].
  destruct (fs w2 !! _) as [[|]|]; [done|..];
    (destruct (is_dir _ _); [|done]); injection Hwrite as <-; cbn; by rewrite Hfs.
Qed.

(** C7, amended to the invocations that complete and to the file name
    matplotlib writes.  When an invocation that plots and names a save
    path (a non-empty one: line 133 takes the empty string for none) ends
    without an error, the plotting stage first makes the
    directory of the path and all its ancestors (they exist when [plot] is
    called), [plot] then stores the figure and changes no other file, and
    the directories are still there at the end.  The figure is stored at
    exactly the save path when the file name of the path has an extension,
    and at the path with [.png] appended when it has none. *)
Theorem saved_image_and_its_directories (a : args) (w w' : world) path :
  main a w = (w', Ok ()) →
  no_plot a = false →
  save_path a = Some path →
  path ≠ "" →
  let dir := (os_path_split path).1 in
  ∃ w0 w1 df g,
    (if create_csv a then rebuild_csv a else mret ()) w = (w0, Ok ()) ∧
    load_table a w0 = (w1, Ok df) ∧
    Forall (λ d, fs w1 !! d = Some Dir) (ancestors dir ++ [dir]) ∧
    plot_call a df w1 = (w', Ok ()) ∧
    facet_result df (hue a) (style a) (SeedStr (seed a)) (bin_size a) = Ok g ∧
    savefig_format path ∈ savefig_formats ∧
    fs w' = <[savefig_filename path := File (Image g)]> (fs w1) ∧
    (names_format path = true → savefig_filename path = path) ∧
    (names_format path = false → savefig_filename path = rstrip_dot path +:+ ".png") ∧
    Forall (λ d, fs w' !! d = Some Dir) (ancestors dir ++ [dir]).
Proof.
  intros Hmain Hplot Hsave Hne dir. unfold main in Hmain. rewrite Hplot in Hmain.
  cbn [negb] in Hmain.
  set (stage1 := if create_csv a then rebuild_csv a else mret ()) in *.
  unfold mbind at 1, io_bind at 1 in Hmain.
  destruct (stage1 w) as [w0 [[]|e]]; [|done].
  unfold mbind, io_bind in Hmain.
  destruct (load_table a w0) as [w1 [df|e]] eqn:Hload; [|done].
  pose proof Hmain as Hcall. unfold plot_call in Hmain.
  destruct (plot_Ok_inv _ _ _ _ _ _ _ _ _ Hmain) as (g & Hg & Hfs & _ & Hpath).
  rewrite Hsave in Hfs. destruct (Hpath path Hsave) as (Hformat & Hnotdir & _).
  destruct (load_table_Ok_inv _ _ _ _ Hload) as (dirs & Hdirs & Hfs1 & _ & _).
  rewrite Hsave, bool_decide_eq_true_2 in Hdirs by done. fold dir in Hdirs. subst dirs.
  assert (Forall (λ d, fs w1 !! d = Some Dir) (ancestors dir ++ [dir])) as Hmade.
  { apply Forall_forall. intros d Hd. rewrite Hfs1. by apply lookup_mkdirs. }
  exists w0, w1, df, g. split_and!; try done.
  - unfold savefig_filename. by intros ->.
  - unfold savefig_filename. by intros ->.
  - apply Forall_forall. intros d Hd. rewrite Forall_forall in Hmade.
    rewrite Hfs, lookup_insert_ne; [by apply Hmade|].
    intros Heq. rewrite Heq in Hnotdir. by rewrite (Hmade _ Hd) in Hnotdir.
Qed.

(** C8, amended to the invocations whose rebuilding step completes.  When
    the rebuilding step of an invocation ends without an error,
    [collate_results] has returned a table and [combined.csv], an entry
    of the results directory, holds that table and nothing of what it held
    before; no other file changes.  The invocation goes on from
    there, and the table its plotting stage passes on is the one read
    back from that path (filtered when a query is given). *)
Theorem combined_csv_is_rewritten (a : args) (w w0 : world) :
  create_csv a = true →
  rebuild_csv a w = (w0, Ok ()) →
  let path := os_path_join (results_dir a) "combined.csv" in
  is_child (results_dir a) path = true ∧
  ∃ df,
    (collate_results (results_dir a) (bin_size a) w).2 = Ok df ∧
    fs w0 = <[path := File (Csv (table_of_frame df))]> (fs w) ∧
    fs w0 !! path = Some (File (Csv (table_of_frame df))) ∧
    main a w =
      (if negb (no_plot a)
       then df ← load_table a; plot_call a df
       else mret ()) w0 ∧
    ∀ w1 data,
      load_table a w0 = (w1, Ok data) →
      fs w1 !! path = Some (File (Csv (table_of_frame df))) ∧
      ∃ read,
        frame_of_table (table_of_frame df) = Ok read ∧
        match query a with
        | Some q => df_query q read = Ok data
        | None => data = read
        end.
Proof.
  intros Hcreate Hrebuild path.
  destruct (rebuild_csv_Ok_inv _ _ _ Hrebuild) as (df & Hcollate & Hfs).
  assert (fs w0 !! path = Some (File (Csv (table_of_frame df)))) as Hfile.
  { rewrite Hfs. apply lookup_insert_eq. }
  split; [apply combined_csv_is_child|].
  exists df. split_and!; [done..| |].
  - unfold main. rewrite Hcreate. unfold mbind at 1, io_bind at 1. by rewrite Hrebuild.
  - intros w1 data Hload.
    destruct (load_table_Ok_inv _ _ _ _ Hload) as (dirs & _ & Hfs1 & Hfiles & read & Hread & Hq).
    assert (fs w1 !! path = Some (File (Csv (table_of_frame df)))) as Hfile1.
    { rewrite Hfs1, lookup_mkdirs_ne; [done|]. intros Hin.
      rewrite Forall_forall in Hfiles. specialize (Hfiles _ Hin).
      by rewrite Hfile in Hfiles. }
    split; [done|]. exists read. split; [|done].
    unfold pd_read_csv in Hread. cbn [fs] in Hread. fold path in Hread.
    by rewrite Hfile1 in Hread.
Qed.

End Script.
(** * Further properties of the script

    The errors of its functions, the shape of the tables they build and
    what they leave untouched. *)

Section More.

Context {F : Type} `{!Numeric F} `{!Libraries F}.

Abbreviation scalar := (scalar F).
Abbreviation table := (table F).
Abbreviation DataFrame := (DataFrame F).
Abbreviation figure := (figure F).
Abbreviation content := (content F).
Abbreviation node := (node F).
Abbreviation world := (world F).
Abbreviation io := (io F).

(** ** [parse_filepath] *)

Lemma bin_frame_zero other (loss : DataFrame) :
  bin_frame other loss 0 = Raise ZeroDivisionError.
Proof. done. Qed.





(** *** The columns of a parsed table *)





(** *** The frame binning builds *)




(** ** [collate_results] *)








(** *** The shape of the combined table *)








(** *** Reading the combined table back *)





(** ** [plot] *)










(** ** [__main__] *)



















(** *** A regular file among the entries of the results directory *)






















End More.

(** * The script on the sample runs *)

Example sample_glob :
  glob_paths Sample.fs_runs "res/*" = ["res/combined.csv"; "res/runC"; "res/runA"; "res/runB"].
Proof. vm_compute. reflexivity. Qed.

(** Run A: 250 rows binned by 100 give the two rows of window means.  The
    log of integers: five rows binned by 2 give the means of rows 0, 1 and
    of rows 2, 3. *)
Lemma parse_filepath_bins_log_witness :
  ((0 < 100)%Z ∧
   Sample.fs_runs !! "res/runA/loss.csv" = Some (File (Csv (Sample.log 250))) ∧
   numeric_frame Sample.loss_A = true ∧
   int64_log Sample.loss_A 100 ∧
   parse_filepath "res/runA" 100 Sample.w_runs =
     (Sample.w_runs,
      Ok (Some (attach_params (json_load Sample.params_A)
                  (binned_means Sample.loss_A 100)))) ∧
   length (rows (attach_params (json_load Sample.params_A)
                   (binned_means Sample.loss_A 100))) = 2) ∧
  (int_frame Sample.loss_counts = true ∧
   int64_log Sample.loss_counts 2 ∧
   bin_frame Sample.refuse_dtype Sample.loss_counts 2 =
     Ok (binned_means Sample.loss_counts 2) ∧
   rows (binned_means Sample.loss_counts 2) =
     [[SFloat (Some (1 # 2)%Q); SFloat (Some 4%Q)];
      [SFloat (Some (5 # 2)%Q); SFloat (Some 8%Q)]]).
Proof.
  split.
  - assert (0 < 100)%Z as HB by lia.
    assert (Sample.fs_runs !! "res/runA/loss.csv" = Some (File (Csv (Sample.log 250))))
      as Hloss by (vm_compute; reflexivity).
    assert (frame_of_table (Sample.log 250) = Ok Sample.loss_A)
      as Hframe by (vm_compute; reflexivity).
    assert (numeric_frame Sample.loss_A = true) as Hnum by (vm_compute; reflexivity).
    assert (int64_log Sample.loss_A 100) as Hint64.
    { split; [vm_compute; reflexivity|]. intros Hint. vm_compute in Hint. discriminate. }
    assert (Sample.fs_runs !! "res/runA/params.json" = Some (File (Json Sample.params_A)))
      as Hparams by (vm_compute; reflexivity).
    destruct (parse_filepath_bins_log Sample.w_runs "res/runA" 100
                (Sample.log 250) Sample.loss_A Sample.params_A
                HB Hloss Hframe Hnum Hint64 Hparams)
      as (_ & Hparse & _ & _ & _ & H250).
    split_and!; [done..|]. apply H250; reflexivity.
  - assert (0 < 2)%Z as HB by lia.
    assert (fs Sample.w_counts !! ("res/runI" +:+ "/loss.csv")
            = Some (File (Csv Sample.counts))) as Hloss by (vm_compute; reflexivity).
    assert (frame_of_table Sample.counts = Ok Sample.loss_counts)
      as Hframe by (vm_compute; reflexivity).
    assert (numeric_frame Sample.loss_counts = true) as Hnum by (vm_compute; reflexivity).
    assert (int64_log Sample.loss_counts 2) as Hint64.
    { split; [vm_compute; reflexivity|]. intros _ i k Hi Hk.
      assert (i < 2) as Hi' by exact Hi. assert (k < 2) as Hk' by exact Hk.
      destruct i as [|[|i]]; [| |lia]; (destruct k as [|[|k]]; [| |lia]);
        vm_compute; reflexivity. }
    assert (fs Sample.w_counts !! ("res/runI" +:+ "/params.json")
            = Some (File (Json Sample.params_A))) as Hparams by (vm_compute; reflexivity).
    destruct (parse_filepath_bins_log Sample.w_counts "res/runI" 2
                Sample.counts Sample.loss_counts Sample.params_A
                HB Hloss Hframe Hnum Hint64 Hparams)
      as (Hbin & _).
    split_and!; [vm_compute; reflexivity|done|exact Hbin|vm_compute; reflexivity].
Defined.

(** A log of integers is summed in [int64]: the sum [2^62 + 2^62] wraps
    around to [-2^63], and lines 19 to 26 give [-2^62] where the mean of
    the two rows is [2^62]. *)
Example integer_log_wraps :
  numeric_frame Sample.loss_huge = true ∧
  int64_cells Sample.loss_huge = true ∧
  bin_frame Sample.refuse_dtype Sample.loss_huge 2 =
    Ok (Frame ["step"] [0] [[SFloat (Some (inject_Z (- 2 ^ 62)))]]) ∧
  window_mean Sample.loss_huge 2 0 0 = Some (inject_Z (2 ^ 62)).
Proof. split_and!; vm_compute; reflexivity. Qed.

(** Run B has a log and no metadata file: it is skipped, and the loop
    collects what it collects without it. *)
Lemma missing_file_run_is_skipped_witness :
  missing_file_run Sample.fs_runs "res/runB" 100 ∧
  (parse_filepath "res/runB" 100 Sample.w_runs).2 = Ok None ∧
  (collate_loop (["res/runC"; "res/runA"] ++ "res/runB" :: []) 100 [] Sample.w_runs).2 =
  (collate_loop (["res/runC"; "res/runA"] ++ []) 100 [] Sample.w_runs).2.
Proof.
  assert (missing_file_run Sample.fs_runs "res/runB" 100) as Hmiss.
  { right. exists (Sample.log 120), Sample.loss_B.
    split_and!; [vm_compute; reflexivity..|lia|vm_compute; reflexivity]. }
  destruct (missing_file_run_is_skipped Sample.w_runs "res/runB" 100 Hmiss)
    as ([path Hparse] & _ & Hskip & _).
  split_and!; [done|by rewrite Hparse|apply Hskip].
Defined.

(** The seed [3] stops [plot] after its first line; a list of seeds does
    not raise the error of line 85. *)
Lemma unrecognized_seed_raises_before_rendering_witness :
  valid_seed (SeedInt 3) = false ∧
  plot Sample.two_envs None None (SeedInt 3) 100 (Some "x.png") true Sample.w_table =
    (World (fs Sample.w_table) ["Plotting using hue=None, style=None, 3"] [],
     Raise (ValueError "3 not a recognized choice")) ∧
  valid_seed (SeedList [1; 2]%Z) = true ∧
  (plot Sample.two_envs None None (SeedList [1; 2]%Z) 100 None true Sample.w_table).2
    ≠ Raise (ValueError "[1, 2] not a recognized choice").
Proof.
  destruct (unrecognized_seed_raises_before_rendering Sample.two_envs None None (SeedInt 3)
              100 (Some "x.png") true Sample.w_table) as [Hbad _].
  destruct (Hbad eq_refl) as (e & Hplot & He).
  destruct (unrecognized_seed_raises_before_rendering Sample.two_envs None None
              (SeedList [1; 2]%Z) 100 None true Sample.w_table) as [_ Hgood].
  split_and!; [reflexivity| |reflexivity|exact (Hgood eq_refl)].
  rewrite Hplot, (He eq_refl). reflexivity.
Defined.

(** The sample directory: runs A and C are parsed, run B and the old
    table are skipped, and the combined table has 2 + 3 rows. *)
Lemma collate_stacks_parsed_runs_witness :
  omap id Sample.outcomes_runs ≠ [] ∧
  ∃ out,
    (collate_results "res" 100 Sample.w_runs).2 = Ok out ∧
    length (rows out) = 5 ∧
    ∀ c, c ∈ columns out ↔ ∃ df, df ∈ omap id Sample.outcomes_runs ∧ c ∈ columns df.
Proof.
  assert (Forall2 (λ run o, (parse_filepath run 100 Sample.w_runs).2 = Ok o)
            (glob_paths (fs Sample.w_runs) ("res" +:+ "/*")) Sample.outcomes_runs) as Hall.
  { unfold Sample.outcomes_runs. change (fs Sample.w_runs) with Sample.fs_runs.
    change ("res" +:+ "/*") with "res/*". rewrite sample_glob.
    repeat (constructor; [vm_compute; reflexivity|]). constructor. }
  assert (omap id Sample.outcomes_runs ≠ []) as Hne by (vm_compute; discriminate).
  destruct (collate_stacks_parsed_runs Sample.w_runs "res" 100 Sample.outcomes_runs Hall Hne)
    as (out & Hout & Hrows & Hcols).
  split; [done|]. exists out. split_and!; [done| |done].
  rewrite Hrows. vm_compute. reflexivity.
Defined.

(** Run C: every row of its table holds the environment and the learning
    rate of its metadata file. *)
Lemma metadata_keys_are_constant_columns_witness :
  ∃ out,
    (parse_filepath "res/runC" 100 Sample.w_runs).2 = Ok (Some out) ∧
    length (rows out) = 3 ∧
    "env" ∈ columns out ∧
    Forall (λ r, cell_at (columns out) "env" r = SStr "breakout") (rows out) ∧
    "lr" ∈ columns out ∧
    Forall (λ r, cell_at (columns out) "lr" r = SFloat (Some (1 # 10000)%Q)) (rows out).
Proof.
  destruct (parse_filepath "res/runC" 100 Sample.w_runs) as [w' r] eqn:Hrun.
  assert (∃ out, r = Ok (Some out) ∧ length (rows out) = 3) as (out & -> & Hlen).
  { vm_compute in Hrun. injection Hrun as _ <-. eexists. split; reflexivity. }
  assert ((parse_filepath "res/runC" 100 Sample.w_runs).2 = Ok (Some out))
    as Hparse by (by rewrite Hrun).
  destruct (metadata_keys_are_constant_columns Sample.w_runs "res/runC" 100 out Hparse)
    as (members & Hfile & _ & _ & Hcols).
  assert (members = Sample.params_C) as ->.
  { vm_compute in Hfile. by injection Hfile as <-. }
  exists out. split_and!; [done|done|..].
  - apply (Hcols "env" (SStr "breakout")). vm_compute. apply list_elem_of_here.
  - apply (Hcols "env" (SStr "breakout")). vm_compute. apply list_elem_of_here.
  - apply (Hcols "lr" (SFloat (Some (1 # 10000)%Q))). vm_compute. do 2 apply list_elem_of_further.
    apply list_elem_of_here.
  - apply (Hcols "lr" (SFloat (Some (1 # 10000)%Q))). vm_compute. do 2 apply list_elem_of_further.
    apply list_elem_of_here.
Defined.

(** Two environments: two panels of height 5, two per grid row. *)
Lemma facet_grid_layout_witness :
  ∃ g,
    (plot Sample.two_envs None None (SeedStr "all") 100 None true Sample.w_table).2 = Ok () ∧
    shown (plot Sample.two_envs None None (SeedStr "all") 100 None true Sample.w_table).1 = [g] ∧
    length (fig_axes g) = 2 ∧ fig_ncol g = 2 ∧ fig_height g = 5%Z.
Proof.
  destruct (plot Sample.two_envs None None (SeedStr "all") 100 None true Sample.w_table)
    as [w' r] eqn:Hplot.
  assert (r = Ok ()) as -> by (vm_compute in Hplot; by injection Hplot as _ <-).
  destruct (facet_grid_layout Sample.two_envs None None (SeedStr "all") 100 None true
              Sample.w_table w' Hplot)
    as (g & envs & Henvs & Hshown & _ & _ & _ & _ & Hfull & _ & Hcol & Hheight & _).
  assert (length (unique envs) = 2 ∧ Forall (λ v, is_null v = false) envs) as [Hn Hvalues].
  { vm_compute in Henvs. injection Henvs as <-. split; [reflexivity|].
    by repeat constructor. }
  exists g. split_and!; [done|by apply Hshown| |apply Hcol; lia|apply Hheight; lia].
  by rewrite (Hfull Hvalues).
Defined.

(** An invocation with [--save-path plots/a/x.png]: both directories are
    made and the figure is stored at the path. *)
Lemma saved_image_and_its_directories_witness :
  (main Sample.args_save Sample.w_table).2 = Ok () ∧
  ∃ g,
    fs (main Sample.args_save Sample.w_table).1 !! "plots/a/x.png" = Some (File (Image g)) ∧
    fs (main Sample.args_save Sample.w_table).1 !! "plots" = Some Dir ∧
    fs (main Sample.args_save Sample.w_table).1 !! "plots/a" = Some Dir.
Proof.
  destruct (main Sample.args_save Sample.w_table) as [w' r] eqn:Hmain.
  assert (r = Ok ()) as -> by (vm_compute in Hmain; by injection Hmain as _ <-).
  assert ("plots/a/x.png" ≠ "") as Hne by discriminate.
  destruct (saved_image_and_its_directories Sample.args_save Sample.w_table w'
              "plots/a/x.png" Hmain eq_refl eq_refl Hne)
    as (w0 & w1 & df & g & _ & _ & _ & _ & _ & _ & Hfs & Hname & _ & Hdirs).
  rewrite (Hname eq_refl) in Hfs.
  split; [done|]. exists g. cbn [fst]. split_and!.
  - rewrite Hfs. apply lookup_insert_eq.
  - apply (proj1 (Forall_forall _ _) Hdirs). vm_compute. apply list_elem_of_here.
  - apply (proj1 (Forall_forall _ _) Hdirs). vm_compute. apply list_elem_of_further.
    apply list_elem_of_here.
Defined.

(** Rebuilding over the table of an earlier invocation: the file holds
    the new table of five rows. *)
Lemma combined_csv_is_rewritten_witness :
  (rebuild_csv Sample.args_rebuild Sample.w_runs).2 = Ok () ∧
  Sample.fs_runs !! "res/combined.csv" = Some (File (Csv (Sample.log 3))) ∧
  ∃ df,
    (collate_results "res" 100 Sample.w_runs).2 = Ok df ∧
    length (rows df) = 5 ∧
    fs (rebuild_csv Sample.args_rebuild Sample.w_runs).1
       !! "res/combined.csv" = Some (File (Csv (table_of_frame df))).
Proof.
  destruct (rebuild_csv Sample.args_rebuild Sample.w_runs) as [w0 r] eqn:Hrebuild.
  assert (r = Ok ()) as -> by (vm_compute in Hrebuild; by injection Hrebuild as _ <-).
  destruct (combined_csv_is_rewritten Sample.args_rebuild Sample.w_runs w0 eq_refl Hrebuild)
    as (_ & df & Hcollate & _ & Hfile & _).
  split_and!; [done|vm_compute; reflexivity|]. exists df. split_and!; [done| |done].
  vm_compute in Hcollate. injection Hcollate as Hdf. by rewrite <- Hdf.
Defined.

(** A directory whose two runs both miss a file: the rebuilding
    invocation raises and writes nothing. *)
Lemma no_parsed_run_aborts_witness :
  glob_paths Sample.fs_skipped "res/*" = ["res/runB"; "res/runD"] ∧
  (collate_results "res" 100 Sample.w_skipped).2
    = Raise (ValueError "No objects to concatenate") ∧
  (main Sample.args_rebuild Sample.w_skipped).2
    = Raise (ValueError "No objects to concatenate") ∧
  fs (main Sample.args_rebuild Sample.w_skipped).1 !! "res/combined.csv" = None.
Proof.
  assert (glob_paths Sample.fs_skipped "res/*" = ["res/runB"; "res/runD"]) as Hglob
    by (vm_compute; reflexivity).
  assert (Forall (λ run, missing_file_run (fs Sample.w_skipped) run 100)
            (glob_paths (fs Sample.w_skipped) ("res" +:+ "/*"))) as Hall.
  { change (fs Sample.w_skipped) with Sample.fs_skipped.
    change ("res" +:+ "/*") with "res/*". rewrite Hglob.
    constructor; [|constructor; [left; vm_compute; reflexivity|constructor]].
    right. exists (Sample.log 120), Sample.loss_B.
    split_and!; [vm_compute; reflexivity..|lia|vm_compute; reflexivity]. }
  destruct (no_parsed_run_aborts Sample.w_skipped "res" 100 Hall) as [Hcollate Hmain].
  destruct (Hmain Sample.args_rebuild eq_refl eq_refl eq_refl) as (Hres & Hfs & _).
  split_and!; [done..|]. rewrite Hfs. vm_compute. reflexivity.
Defined.

(** [--seed "[1, 2]"] is the string, not a list: [plot] raises. *)
Lemma cli_seed_is_a_string_witness :
  seed Sample.args_seed_list ≠ "average" ∧
  seed Sample.args_seed_list ≠ "all" ∧
  is_list (SeedStr (seed Sample.args_seed_list)) = false ∧
  plot_call Sample.args_seed_list Sample.two_envs Sample.w_table =
    (World (fs Sample.w_table) ["Plotting using hue=None, style=None, [1, 2]"] [],
     Raise (ValueError "[1, 2] not a recognized choice")) ∧
  ∃ e, (main Sample.args_seed_list Sample.w_table).2 = Raise e.
Proof.
  assert (seed Sample.args_seed_list ≠ "average") as Havg by (cbn; discriminate).
  assert (seed Sample.args_seed_list ≠ "all") as Hall by (cbn; discriminate).
  destruct (cli_seed_is_a_string Sample.args_seed_list) as (_ & Hlist & Hraise).
  destruct (Hraise Havg Hall) as [Hcall Hmain].
  split_and!; [done..| |].
  - rewrite (Hcall Sample.two_envs Sample.w_table); [reflexivity|vm_compute; reflexivity].
  - destruct (Hmain Sample.w_table eq_refl) as (e & He & _). by exists e.
Defined.

(** * Where the specification and the script part *)

(** A save path without a directory part: [os.path.split] gives the empty
    directory name, [os.makedirs] refuses it, and the invocation ends
    before the table is read. *)
Example bare_file_name_save_path :
  main (Args "res" false 100 None None None "average" false false (Some "plot.png"))
       Sample.w_table
  = (Sample.w_table, Raise (FileNotFoundError "")).
Proof. vm_compute. reflexivity. Qed.

(** With a [pd.read_csv] that passes the error of the operating system
    on, the table of an earlier invocation, which [glob.glob] lists among
    the runs, stops the rebuilding. *)
Example rebuild_over_old_table_later_pandas :
  (rebuild_csv (Libraries0 := Sample.later_pandas) Sample.args_rebuild Sample.w_runs).2
    = Raise (NotADirectoryError "res/combined.csv/loss.csv").
Proof. vm_compute. reflexivity. Qed.

(** C4 as stated fails for no run at all: in a results directory
    without entries every one of the zero runs is parsed, yet
    [collate_results] returns no table. *)
Lemma collate_no_run_counterexample :
  glob_paths (fs Sample.w_empty) "res/*" = [] ∧
  ¬ ∃ out,
      (collate_results "res" 100 Sample.w_empty).2 = Ok out ∧
      length (rows out) = sum_list ((length ∘ rows) <$> ([] : list (DataFrame Sample.FQ))) ∧
      ∀ c, c ∈ columns out ↔
           ∃ df, df ∈ ([] : list (DataFrame Sample.FQ)) ∧ c ∈ columns df.
Proof.
  split; [vm_compute; reflexivity|]. intros (out & Hout & _). vm_compute in Hout. discriminate.
Qed.

(** C6 as stated fails for two environments: the grid is two panels
    wide, not a single column. *)
Lemma two_environments_counterexample :
  env_count Sample.two_envs = 2 ∧
  ∃ g,
    plot Sample.two_envs None None (SeedStr "average") 100 None true Sample.w_table =
      (World (fs Sample.w_table) ["Plotting using hue=None, style=None, average"] [g],
       Ok ()) ∧
    length (fig_axes g) = 2 ∧
    fig_ncol g = 2 ∧
    fig_ncol g ≠ 1.
Proof.
  split; [vm_compute; reflexivity|]. eexists. split_and!; [vm_compute; reflexivity|..].
  - vm_compute. reflexivity.
  - vm_compute. reflexivity.
  - vm_compute. discriminate.
Qed.

(** C7 as stated fails for an invocation that names a save path, plots,
    and passes an unrecognized seed: the directories are made, [plot]
    raises, and no image is written to the path.  It also fails for an
    invocation that completes when the file name of the save path has no
    extension: the image is written to the path with [.png] appended, and
    nothing to the path itself. *)
Lemma unsaved_image_counterexample :
  (save_path Sample.args_median = Some "plots/a/x.png" ∧
   no_plot Sample.args_median = false ∧
   (main Sample.args_median Sample.w_table).2
     = Raise (ValueError "median not a recognized choice") ∧
   fs (main Sample.args_median Sample.w_table).1 !! "plots/a/x.png" = None) ∧
  (save_path Sample.args_no_extension = Some "plots/a/fig" ∧
   no_plot Sample.args_no_extension = false ∧
   (main Sample.args_no_extension Sample.w_table).2 = Ok () ∧
   fs (main Sample.args_no_extension Sample.w_table).1 !! "plots/a/fig" = None ∧
   is_file (fs (main Sample.args_no_extension Sample.w_table).1 !! "plots/a/fig.png") = true).
Proof. split; split_and!; vm_compute; reflexivity. Qed.

(** C8 as stated fails for a results directory without runs: the
    invocation with [--create-csv] raises and writes no [combined.csv]. *)
Lemma unwritten_table_counterexample :
  create_csv Sample.args_rebuild = true ∧
  (main Sample.args_rebuild Sample.w_empty).2
    = Raise (ValueError "No objects to concatenate") ∧
  fs (main Sample.args_rebuild Sample.w_empty).1
     !! os_path_join (results_dir Sample.args_rebuild) "combined.csv" = None.
Proof. split_and!; vm_compute; reflexivity. Qed.
(** * More of the script on the sample runs *)



















